(** * adk-spanner-agent: the query-validation and safe-execution pipeline

    A shallow embedding of [spanner_agent/agent.py]: the policy engine
    ([SpannerSecurityValidator.validate_query]), the audited execution
    wrapper ([SpannerAgent.execute_query]), the derived read-only operations
    and the five tool functions handed to the hosting runtime.

    Texts are Python [str] values over the code points below 256, rendered
    as [string].  On them [str.strip], [str.lower], [str.count], [in] and
    the character classes of the [re] module ([\s], [\w], [\b], [.], and
    letters under IGNORECASE) are reproduced exactly.  [str.upper] is
    reproduced exactly except on three letters, whose upper-case form is
    not a character below 256: U+00B5 (to U+039C), U+00DF (to "SS") and
    U+00FF (to U+0178).  [Text.upper] leaves them as they are, and
    [Text.upper_closed] names the texts without them, on which the whole
    embedding of [validate_query] is exact; it is a hypothesis of the
    theorems that would otherwise depend on the upper-case form of these
    three letters. *)

From Stdlib Require Import String Ascii List ZArith Bool Lia Arith DecimalString.
Import ListNotations.
Local Open Scope string_scope.

Set Implicit Arguments.

(* ================================================================== *)
(** * Text primitives of the Python runtime                            *)
(* ================================================================== *)

Module Text.

Definition code (c : ascii) : nat := nat_of_ascii c.

Definition between (lo hi : nat) (c : ascii) : bool :=
  Nat.leb lo (code c) && Nat.leb (code c) hi.

(** [str.isspace] on one character, which is also the class [\s] of a
    [str] pattern: TAB..CR, the four separators FS..US, the blank, the
    next-line control U+0085 and the no-break space U+00A0. *)
Definition isspace (c : ascii) : bool :=
  between 9 13 c || between 28 32 c ||
  Nat.eqb (code c) 133 || Nat.eqb (code c) 160.

(** [str.isupper] on one character: A..Z and U+00C0..U+00DE without the
    multiplication sign U+00D7. *)
Definition isupper (c : ascii) : bool :=
  between 65 90 c || between 192 214 c || between 216 222 c.

(** The letters whose upper-case form is one character below 256: a..z
    and U+00E0..U+00FE without the division sign U+00F7. *)
Definition small_letter (c : ascii) : bool :=
  between 97 122 c || between 224 246 c || between 248 254 c.

Definition isdigit (c : ascii) : bool := between 48 57 c.

(** The other alphanumerics below 256: the ordinal indicators U+00AA and
    U+00BA, the superscripts U+00B2, U+00B3, U+00B9, the fractions
    U+00BC..U+00BE, and the letters U+00B5, U+00DF, U+00FF. *)
Definition other_alnum (c : ascii) : bool :=
  existsb (Nat.eqb (code c)) [170; 178; 179; 181; 185; 186; 188; 189; 190; 223; 255].

(** [str.isalnum] on one character. *)
Definition isalnum (c : ascii) : bool :=
  isupper c || small_letter c || isdigit c || other_alnum c.

(** The class [\w] of a [str] pattern: alphanumerics and the underscore. *)
Definition isword (c : ascii) : bool :=
  isalnum c || Nat.eqb (code c) 95.

(** The letters on which [str.upper] leaves the code points below 256:
    U+00B5 becomes U+039C, U+00DF becomes "SS", U+00FF becomes U+0178. *)
Definition upper_leaves (c : ascii) : bool :=
  existsb (Nat.eqb (code c)) [181; 223; 255].

(** [c.upper()] for every character but those three, which are kept. *)
Definition upper_char (c : ascii) : ascii :=
  if small_letter c then ascii_of_nat (code c - 32)%nat else c.

(** [c.lower()] *)
Definition lower_char (c : ascii) : ascii :=
  if isupper c then ascii_of_nat (code c + 32)%nat else c.

(** The texts on which [upper] below is exactly [str.upper]. *)
Fixpoint upper_closed (s : string) : bool :=
  match s with
  | EmptyString => true
  | String c s' => negb (upper_leaves c) && upper_closed s'
  end.

(** [s.upper()] *)
Fixpoint upper (s : string) : string :=
  match s with
  | EmptyString => EmptyString
  | String c s' => String (upper_char c) (upper s')
  end.

(** [s.lstrip()] *)
Fixpoint lstrip (s : string) : string :=
  match s with
  | EmptyString => EmptyString
  | String c s' => if isspace c then lstrip s' else s
  end.

(** [s.rstrip()]: a blank is kept exactly when something survives to its
    right. *)
Fixpoint rstrip (s : string) : string :=
  match s with
  | EmptyString => EmptyString
  | String c s' =>
      if isspace c
      then match rstrip s' with
           | EmptyString => EmptyString
           | String d t => String c (String d t)
           end
      else String c (rstrip s')
  end.

(** [s.strip()] *)
Definition strip (s : string) : string := rstrip (lstrip s).

(** [s.startswith(p)] *)
Fixpoint startswith (p s : string) : bool :=
  match p, s with
  | EmptyString, _ => true
  | String a p', String b s' => Ascii.eqb a b && startswith p' s'
  | String _ _, EmptyString => false
  end.

Fixpoint drop (n : nat) (s : string) : string :=
  match n, s with
  | O, _ => s
  | S n', String _ s' => drop n' s'
  | S _, EmptyString => EmptyString
  end.

(** [s.count(sub)] for a non-empty [sub]: occurrences are counted from the
    left and do not overlap, the scan resuming after each one found. *)
Fixpoint count_from (fuel : nat) (sub s : string) : nat :=
  match fuel with
  | O => 0
  | S fuel' =>
      match s with
      | EmptyString => 0
      | String _ s' =>
          if startswith sub s
          then S (count_from fuel' sub (drop (String.length sub) s))
          else count_from fuel' sub s'
      end
  end.

Definition count (sub s : string) : nat := count_from (String.length s) sub s.

(** [sub in s] *)
Fixpoint contains (sub s : string) : bool :=
  startswith sub s ||
  match s with
  | EmptyString => false
  | String _ s' => contains sub s'
  end.

Definition newline : ascii := ascii_of_nat 10.

(** [sep.join(parts)] *)
Fixpoint join (sep : string) (parts : list string) : string :=
  match parts with
  | [] => ""
  | [p] => p
  | p :: rest => p ++ sep ++ join sep rest
  end.

End Text.

(* ================================================================== *)
(** * The fragment of the [re] module the validator relies on          *)
(* ================================================================== *)

Module Re.
Import Text.

(** Compiled form of a pattern. *)
Inductive regex : Type :=
| REmpty                                   (* the empty sequence *)
| RChar (c : ascii)                        (* a literal character *)
| RAny                                     (* [.] *)
| RSpace                                   (* [\s] *)
| RWordB                                   (* [\b] *)
| RBol                                     (* [^] *)
| REol                                     (* [$] *)
| RCat (r1 r2 : regex)
| RAlt (r1 r2 : regex)
| RGroup (r : regex)                       (* [( ... )] *)
| RStar (greedy : bool) (r : regex).       (* [r*] and [r*?] *)

Definition is_meta (c : ascii) : bool :=
  existsb (Ascii.eqb c)
    ["."; "^"; "$"; "*"; "+"; "?"; "{"; "}"; "["; "]"; "\"; "|"; "("; ")"]%char.

(** Recursive-descent reading of a pattern: alternatives of sequences of
    repeated atoms.  [r+] is read as [r] followed by [r*].  A construct
    outside the fragment makes the whole pattern unreadable ([None]). *)
Fixpoint p_alt (n : nat) (s : string) : option (regex * string) :=
  match n with
  | O => None
  | S n' =>
      match p_cat n' s with
      | Some (r1, String "|" s') =>
          match p_alt n' s' with
          | Some (r2, s'') => Some (RAlt r1 r2, s'')
          | None => None
          end
      | other => other
      end
  end
with p_cat (n : nat) (s : string) : option (regex * string) :=
  match n with
  | O => None
  | S n' =>
      match s with
      | EmptyString => Some (REmpty, s)
      | String "|" _ => Some (REmpty, s)
      | String ")" _ => Some (REmpty, s)
      | _ =>
          match p_rep n' s with
          | Some (r1, s') =>
              match p_cat n' s' with
              | Some (REmpty, s'') => Some (r1, s'')
              | Some (r2, s'') => Some (RCat r1 r2, s'')
              | None => None
              end
          | None => None
          end
      end
  end
with p_rep (n : nat) (s : string) : option (regex * string) :=
  match n with
  | O => None
  | S n' =>
      match p_atom n' s with
      | Some (r, String "*" (String "?" s')) => Some (RStar false r, s')
      | Some (r, String "*" s') => Some (RStar true r, s')
      | Some (r, String "+" s') => Some (RCat r (RStar true r), s')
      | other => other
      end
  end
with p_atom (n : nat) (s : string) : option (regex * string) :=
  match n with
  | O => None
  | S n' =>
      match s with
      | EmptyString => None
      | String "(" s' =>
          match p_alt n' s' with
          | Some (r, String ")" s'') => Some (RGroup r, s'')
          | _ => None
          end
      | String "\" (String "b" s') => Some (RWordB, s')
      | String "\" (String "s" s') => Some (RSpace, s')
      | String "\" (String c s') =>
          if is_meta c then Some (RChar c, s') else None
      | String "." s' => Some (RAny, s')
      | String "^" s' => Some (RBol, s')
      | String "$" s' => Some (REol, s')
      | String c s' => if is_meta c then None else Some (RChar c, s')
      end
  end.

(** [re.compile(pattern)] *)
Definition compile (pattern : string) : option regex :=
  match p_alt (4 * String.length pattern + 4)%nat pattern with
  | Some (r, EmptyString) => Some r
  | _ => None
  end.

Record flags : Type := Flags { IGNORECASE : bool; MULTILINE : bool }.

Definition no_flags : flags := Flags false false.

Definition char_matches (fl : flags) (c x : ascii) : bool :=
  if IGNORECASE fl then Ascii.eqb (lower_char c) (lower_char x) else Ascii.eqb c x.

Definition word_before (prev : option ascii) : bool :=
  match prev with Some c => isword c | None => false end.

Definition word_after (s : string) : bool :=
  match s with String c _ => isword c | EmptyString => false end.

(** [^]: the start of the text and, with MULTILINE, the position after
    every newline. *)
Definition at_bol (fl : flags) (prev : option ascii) : bool :=
  match prev with
  | None => true
  | Some c => MULTILINE fl && Ascii.eqb c newline
  end.

(** [$]: the end of the text or just before a final newline and, with
    MULTILINE, the position before every newline. *)
Definition at_eol (fl : flags) (s : string) : bool :=
  match s with
  | EmptyString => true
  | String c s' =>
      Ascii.eqb c newline &&
      (MULTILINE fl || match s' with EmptyString => true | _ => false end)
  end.

(** Backtracking matcher in continuation style.  [prev] is the character
    just before the current position, [s] the text from it on, and [k]
    decides what follows the part matched by [r].  Only the existence of a
    match is computed; the order of the alternatives is the engine's. *)
Fixpoint rmatch (fl : flags) (r : regex) (prev : option ascii) (s : string)
    (k : option ascii -> string -> bool) {struct r} : bool :=
  match r with
  | REmpty => k prev s
  | RChar c =>
      match s with
      | String x s' => if char_matches fl c x then k (Some x) s' else false
      | EmptyString => false
      end
  | RAny =>
      match s with
      | String x s' => if Ascii.eqb x newline then false else k (Some x) s'
      | EmptyString => false
      end
  | RSpace =>
      match s with
      | String x s' => if isspace x then k (Some x) s' else false
      | EmptyString => false
      end
  | RWordB => if xorb (word_before prev) (word_after s) then k prev s else false
  | RBol => if at_bol fl prev then k prev s else false
  | REol => if at_eol fl s then k prev s else false
  | RCat r1 r2 => rmatch fl r1 prev s (fun p' s' => rmatch fl r2 p' s' k)
  | RAlt r1 r2 => rmatch fl r1 prev s k || rmatch fl r2 prev s k
  | RGroup r1 => rmatch fl r1 prev s k
  | RStar greedy r1 =>
      (fix loop (n : nat) (prev : option ascii) (s : string) {struct n} : bool :=
         match n with
         | O => k prev s
         | S n' =>
             if greedy
             then rmatch fl r1 prev s (loop n') || k prev s
             else k prev s || rmatch fl r1 prev s (loop n')
         end) (String.length s) prev s
  end.

Definition accept (_ : option ascii) (_ : string) : bool := true.

(** Scan for a match starting at the current position or further right. *)
Fixpoint search_from (fl : flags) (r : regex) (prev : option ascii) (s : string) : bool :=
  rmatch fl r prev s accept ||
  match s with
  | EmptyString => false
  | String c s' => search_from fl r (Some c) s'
  end.

(** [bool(re.search(pattern, text, flags))] *)
Definition search (pattern text : string) (fl : flags) : bool :=
  match compile pattern with
  | Some r => search_from fl r None text
  | None => false
  end.

(** [bool(re.match(pattern, text))] *)
Definition match_ (pattern text : string) : bool :=
  match compile pattern with
  | Some r => rmatch no_flags r None text accept
  | None => false
  end.

End Re.

(* ================================================================== *)
(** * Data model                                                       *)
(* ================================================================== *)

(** [class OperationType(Enum)] *)
Inductive OperationType : Type :=
| READ | SCHEMA | METADATA | MONITORING | ADMIN_READ.

(** [@dataclass class SecurityContext]; [__post_init__] replaces a missing
    [allowed_operations] by the three read kinds. *)
Record SecurityContext : Type := mkSecurityContext {
  ctx_user_id : string;
  ctx_session_id : string;
  read_only : bool;
  max_rows : Z;
  query_timeout : Z;
  allowed_operations : list OperationType
}.

Definition default_allowed_operations : list OperationType :=
  [READ; SCHEMA; METADATA].

Definition new_SecurityContext (user_id session_id : string) (ro : bool)
    (rows timeout : Z) (ops : option (list OperationType)) : SecurityContext :=
  mkSecurityContext user_id session_id ro rows timeout
    (match ops with
     | None => default_allowed_operations
     | Some l => l
     end).

(* ================================================================== *)
(** * The policy engine                                                *)
(* ================================================================== *)

Module SpannerSecurityValidator.
Import Text Re.

Definition DANGEROUS_PATTERNS : list string :=
  [ "\b(DELETE|DROP|TRUNCATE|ALTER|CREATE|INSERT|UPDATE|GRANT|REVOKE)\b";
    "\b(EXEC|EXECUTE|sp_|xp_)\b";
    "--.*$";
    "/\*.*?\*/";
    ";\s*$";
    "UNION\s+ALL\s+SELECT";
    "INFORMATION_SCHEMA\.(TABLES|COLUMNS)" ].

Definition ALLOWED_PATTERNS : list string :=
  [ "^\s*SELECT\s+";
    "^\s*WITH\s+";
    "^\s*SHOW\s+";
    "^\s*DESCRIBE\s+" ].

(** [sql.upper().strip()], the text every pattern is tried on. *)
Definition sql_upper (sql : string) : string := strip (upper sql).

(** The first denylist pattern found in the normalised text, in list
    order: [re.search(pattern, sql_upper, re.IGNORECASE | re.MULTILINE)]. *)
Definition dangerous_pattern (text : string) : option string :=
  find (fun pattern => search pattern text (Flags true true)) DANGEROUS_PATTERNS.

(** [any(re.match(pattern, sql_upper) for pattern in ALLOWED_PATTERNS)] *)
Definition allowed_shape (text : string) : bool :=
  existsb (fun pattern => match_ pattern text) ALLOWED_PATTERNS.

Definition validate_query (sql : string) (security_context : SecurityContext)
    : bool * string :=
  let sql_upper := sql_upper sql in
  match dangerous_pattern sql_upper with
  | Some pattern => (false, "Query contains forbidden pattern: " ++ pattern)
  | None =>
      if read_only security_context && negb (allowed_shape sql_upper)
      then (false, "Read-only mode: Only SELECT queries are allowed")
      else if Nat.ltb 3 (count "SELECT" sql_upper)
      then (false, "Query too complex: Too many SELECT statements")
      else if (10000 <? Z.of_nat (String.length sql))%Z
      then (false, "Query too long: Maximum 10,000 characters allowed")
      else (true, "")
  end.

End SpannerSecurityValidator.

(* ================================================================== *)
(** * Runtime: exceptions, the observable world, the host platform     *)
(* ================================================================== *)

Module Runtime.

(** A raised exception: its class, [str(e)] and, for [raise ... from],
    the exception it was raised from. *)
Inductive exn : Type :=
| Exn (cls : string) (msg : string)
| ExnFrom (cls : string) (msg : string) (cause : exn).

Definition exn_class (e : exn) : string :=
  match e with Exn c _ => c | ExnFrom c _ _ => c end.

(** [str(e)] *)
Definition str_exn (e : exn) : string :=
  match e with Exn _ m => m | ExnFrom _ m _ => m end.

(** [e.__cause__] *)
Definition exn_cause (e : exn) : option exn :=
  match e with Exn _ _ => None | ExnFrom _ _ c => Some c end.

Definition ValueError (msg : string) : exn := Exn "ValueError" msg.
Definition RuntimeError_from (msg : string) (e : exn) : exn :=
  ExnFrom "RuntimeError" msg e.
Definition AttributeError (msg : string) : exn := Exn "AttributeError" msg.
Definition TypeError (msg : string) : exn := Exn "TypeError" msg.
(** [str(KeyError(k))] is [repr(k)]; the keys used are plain identifiers. *)
Definition KeyError (key : string) : exn := Exn "KeyError" ("'" ++ key ++ "'").

Inductive outcome (A : Type) : Type :=
| Return (a : A)
| Raise (e : exn).
Arguments Return {A} a.
Arguments Raise {A} e.

(** One line written by [_audit_log]. *)
Record AuditEntry : Type := mkAuditEntry {
  audit_timestamp : string;
  audit_event_type : string;
  audit_user_id : string;
  audit_session_id : string;
  audit_sql : string;
  audit_details : string;
  audit_project_id : option string;
  audit_instance_id : string;
  audit_database_id : string
}.

(** What the database collaborator is asked to do. *)
Inductive DbEvent : Type :=
| OpenSnapshot
| ExecuteSql (sql : string)
| FetchRow
| CloseSnapshot.

(** Everything a call can change: how often the clock was read, the audit
    lines and error lines logged, the requests sent to the database. *)
Record World : Type := mkWorld {
  clock : nat;
  audit_log : list AuditEntry;
  error_log : list string;
  db_log : list DbEvent
}.

Definition initial_world : World := mkWorld 0 [] [] [].

(** Computations that change the world and may raise; the changes made
    before an exception is raised stay made. *)
Definition M (A : Type) : Type := World -> outcome A * World.

Definition ret {A} (a : A) : M A := fun w => (Return a, w).

Definition raise {A} (e : exn) : M A := fun w => (Raise e, w).

Definition bind {A B} (c : M A) (f : A -> M B) : M B :=
  fun w =>
    match c w with
    | (Return a, w') => f a w'
    | (Raise e, w') => (Raise e, w')
    end.

(** [try: body  except Exception as e: handler(e)] *)
Definition try_except {A} (body : M A) (handler : exn -> M A) : M A :=
  fun w =>
    match body w with
    | (Return a, w') => (Return a, w')
    | (Raise e, w') => handler e w'
    end.

(** Run [body], then [cleanup] on every exit path, as [with] does. *)
Definition finally {A} (body : M A) (cleanup : M unit) : M A :=
  fun w =>
    match body w with
    | (r, w') =>
        match cleanup w' with
        | (Return _, w'') => (r, w'')
        | (Raise e, w'') => (Raise e, w'')
        end
    end.

Definition tick : M nat :=
  fun w => (Return (clock w),
            mkWorld (S (clock w)) (audit_log w) (error_log w) (db_log w)).

Definition emit_audit (a : AuditEntry) : M unit :=
  fun w => (Return tt,
            mkWorld (clock w) (audit_log w ++ [a])%list (error_log w) (db_log w)).

(** [logger.error(msg)] *)
Definition logger_error (msg : string) : M unit :=
  fun w => (Return tt,
            mkWorld (clock w) (audit_log w) (error_log w ++ [msg])%list (db_log w)).

Definition db_request (ev : DbEvent) : M unit :=
  fun w => (Return tt,
            mkWorld (clock w) (audit_log w) (error_log w) (db_log w ++ [ev])%list).

Definition db_requests : M (list DbEvent) :=
  fun w => (Return (db_log w), w).

(** Python values that cross the boundaries of the agent: cells of result
    rows and the dictionaries built from them. *)
#[warnings="-register-all"]
Inductive value (F : Type) : Type :=
| VNone
| VBool (b : bool)
| VInt (z : Z)
| VFloat (f : F)
| VStr (s : string)
| VList (items : list (value F))
| VDict (entries : list (value F * value F)).
Arguments VNone {F}.
Arguments VBool {F} b.
Arguments VInt {F} z.
Arguments VFloat {F} f.
Arguments VStr {F} s.
Arguments VList {F} items.
Arguments VDict {F} entries.

(** What the code takes from the interpreter and its clock.  Floats stay
    opaque: only their difference, their equality as dictionary keys and
    their rendering with three decimals are ever used. *)
Record Platform : Type := mkPlatform {
  float : Type;
  float_zero : float;
  float_sub : float -> float -> float;
  float_eqb : float -> float -> bool;
  format_3f : float -> string;           (* f"{x:.3f}" *)
  utcnow_isoformat : nat -> string;      (* datetime.utcnow().isoformat() *)
  time_time : nat -> float               (* time.time() *)
}.

End Runtime.

Declare Scope py_scope.
Delimit Scope py_scope with py.
Notation "x <- c ;; k" := (Runtime.bind c (fun x => k))
  (at level 61, c at next level, right associativity) : py_scope.
Notation "c ;; k" := (Runtime.bind c (fun _ => k))
  (at level 61, right associativity) : py_scope.

(* ================================================================== *)
(** * The agent                                                        *)
(* ================================================================== *)

Module SpannerAgent.
Import Text Runtime SpannerSecurityValidator.
Local Open Scope py_scope.

Section Data.

(** The type standing for Python's [float]. *)
Variable F : Type.

Local Abbreviation value := (Runtime.value F).

(** A [dict], in insertion order. *)
Definition dict : Type := list (value * value).

(** Building a dictionary with string keys. *)
Definition obj (fields : list (string * value)) : value :=
  VDict (map (fun kv => (VStr (fst kv), snd kv)) fields).

Definition opt_str (o : option string) : value :=
  match o with
  | Some s => VStr s
  | None => VNone
  end.

(** ** The database collaborator *)

(** The rows a result set streams, one per request, until it is exhausted
    or the stream breaks. *)
Inductive row_stream : Type :=
| Exhausted
| NextRow (values : list value) (rest : row_stream)
| StreamError (e : exn).

(** How the database answers one [execute_query]. *)
Inductive execution : Type :=
| SnapshotFails (e : exn)          (* [self.database.snapshot()] raises *)
| ExecuteFails (e : exn)           (* [snapshot.execute_sql(sql)] raises *)
| MetadataFails (e : exn)          (* [rows.metadata.row_type.fields] raises *)
| ResultSet (field_names : list string) (rows : row_stream).

(** A database: its answer to a statement, given how many requests it has
    served before. *)
Definition Database : Type := nat -> string -> execution.

(** ** [@dataclass class QueryResult] *)
Record QueryResult : Type := mkQueryResult {
  success : bool;
  data : list dict;
  row_count : Z;
  execution_time : F;
  sql : string;
  timestamp : string;
  user_id : string;
  session_id : string;
  error : option string
}.

(** [asdict(result)] *)
Definition asdict (r : QueryResult) : value :=
  obj [ ("success", VBool (success r));
        ("data", VList (map VDict (data r)));
        ("row_count", VInt (row_count r));
        ("execution_time", VFloat (execution_time r));
        ("sql", VStr (sql r));
        ("timestamp", VStr (timestamp r));
        ("user_id", VStr (user_id r));
        ("session_id", VStr (session_id r));
        ("error", opt_str (error r)) ].

(** ** [class SpannerAgent]: the attributes set by [__init__] *)
Record SpannerAgent : Type := mkSpannerAgent {
  project_id : option string;
  instance_id : string;
  database_id : string;
  self_read_only : bool;
  self_max_rows : Z;
  self_query_timeout : Z;
  enable_audit : bool;
  database : Database
}.

(** One entry of [schema_info["tables"]]. *)
Record table_entry : Type := mkTableEntry {
  columns : list value;
  column_count : Z
}.

(** The part of [health_info] that the probe changes. *)
Record probe_state : Type := mkProbeState {
  status : string;
  connection_status : string;
  connection_error : option string;
  last_query_time : value;
  total_queries : Z
}.

End Data.

Arguments opt_str {F} o.
Arguments Exhausted {F}.
Arguments NextRow {F} values rest.
Arguments StreamError {F} e.
Arguments SnapshotFails {F} e.
Arguments ExecuteFails {F} e.
Arguments MetadataFails {F} e.
Arguments ResultSet {F} field_names rows.

Section Agent.

Variable P : Platform.

Local Abbreviation F := (float P).
Local Abbreviation value := (Runtime.value (float P)).

(** Equality of dictionary keys; [True] and [1] are the same key. *)
Definition key_eqb (a b : value) : bool :=
  match a, b with
  | VNone, VNone => true
  | VBool x, VBool y => Bool.eqb x y
  | VBool x, VInt y => Z.eqb (if x then 1 else 0) y
  | VInt x, VBool y => Z.eqb x (if y then 1 else 0)
  | VInt x, VInt y => Z.eqb x y
  | VFloat x, VFloat y => float_eqb P x y
  | VStr x, VStr y => String.eqb x y
  | _, _ => false
  end.

Fixpoint assoc_get {V : Type} (d : list (value * V)) (k : value) : option V :=
  match d with
  | [] => None
  | (k', v) :: d' => if key_eqb k' k then Some v else assoc_get d' k
  end.

(** [d[k] = v]: an existing key keeps its place. *)
Fixpoint assoc_set {V : Type} (d : list (value * V)) (k : value) (v : V)
    : list (value * V) :=
  match d with
  | [] => [(k, v)]
  | (k', v') :: d' =>
      if key_eqb k' k then (k', v) :: d' else (k', v') :: assoc_set d' k v
  end.

Definition dict_get (d : (dict F)) (k : value) : option value := assoc_get d k.
Definition dict_set (d : (dict F)) (k v : value) : (dict F) := assoc_set d k v.

(** [k in d], which hashes [k] first. *)
Definition has_key {V : Type} (d : list (value * V)) (k : value) : M bool :=
  match k with
  | VList _ => raise (TypeError "unhashable type: 'list'")
  | VDict _ => raise (TypeError "unhashable type: 'dict'")
  | _ => ret (match assoc_get d k with Some _ => true | None => false end)
  end.

(** [dict(zip(field_names, values))] *)
Definition dict_zip (field_names : list string) (values : list value) : (dict F) :=
  fold_left (fun d kv => dict_set d (VStr (fst kv)) (snd kv))
            (combine field_names values) [].

(** [row[key]] for a string key *)
Definition getitem (row : (dict F)) (key : string) : M value :=
  match dict_get row (VStr key) with
  | Some v => ret v
  | None => raise (KeyError key)
  end.

(** [v == text] *)
Definition eq_str (v : value) (text : string) : bool :=
  match v with
  | VStr s => String.eqb s text
  | _ => false
  end.

(** [str(n)] for an [int] *)
Definition str_int (z : Z) : string := NilZero.string_of_int (Z.to_int z).

(** [datetime.utcnow().isoformat()] *)
Definition utcnow : M string :=
  n <- tick ;; ret (utcnow_isoformat P n).

(** [time.time()] *)
Definition time : M F :=
  n <- tick ;; ret (time_time P n).

Definition _create_security_context (self : SpannerAgent F)
    (user_id session_id : string) : SecurityContext :=
  new_SecurityContext user_id session_id (self_read_only self)
    (self_max_rows self) (self_query_timeout self) None.

Definition _audit_log (self : SpannerAgent F)
    (event_type sql user_id session_id details : string) : M unit :=
  if negb (enable_audit self) then ret tt
  else
    now <- utcnow ;;
    emit_audit (mkAuditEntry now event_type user_id session_id sql details
                  (project_id self) (instance_id self) (database_id self)).

(** The loop over the streamed rows: each turn first takes the next row
    from the stream, then tests the cap, then stores the row. *)
Fixpoint fetch_rows (rows : row_stream F) (field_names : list string)
    (max_rows : Z) (results : list (dict F)) (row_count : Z) : M (list (dict F)) :=
  match rows with
  | Exhausted => ret results
  | StreamError e => db_request FetchRow ;; raise e
  | NextRow values rest =>
      db_request FetchRow ;;
      if (row_count >=? max_rows)%Z then ret results
      else fetch_rows rest field_names max_rows
             (results ++ [dict_zip field_names values])%list (row_count + 1)%Z
  end.

(** The [with self.database.snapshot() as snapshot:] block. *)
Definition run_in_snapshot (self : SpannerAgent F) (sql : string)
    (security_context : SecurityContext) : M (list (dict F) * F) :=
  served <- db_requests ;;
  let answer := database self (length served) sql in
  db_request OpenSnapshot ;;
  match answer with
  | SnapshotFails e => raise e
  | _ =>
      finally
        (query_start <- time ;;
         db_request (ExecuteSql sql) ;;
         match answer with
         | SnapshotFails e => raise e
         | ExecuteFails e => raise e
         | MetadataFails e =>
             now <- time ;;
             raise e
         | ResultSet field_names rows =>
             now <- time ;;
             let execution_time := float_sub P now query_start in
             results <- fetch_rows rows field_names
                          (max_rows security_context) [] 0 ;;
             ret (results, execution_time)
         end)
        (db_request CloseSnapshot)
  end.

Definition execute_query (self : SpannerAgent F)
    (sql user_id session_id : string) : M (QueryResult F) :=
  let security_context := _create_security_context self user_id session_id in
  let '(is_valid, error_message) := validate_query sql security_context in
  if negb is_valid then
    _audit_log self "query_rejected" sql user_id session_id error_message ;;
    raise (ValueError ("Query rejected for security reasons: " ++ error_message))
  else
    _audit_log self "query_execution_start" sql user_id session_id "" ;;
    try_except
      (fetched <- run_in_snapshot self sql security_context ;;
       let '(results, execution_time) := fetched in
       now <- utcnow ;;
       let result :=
         mkQueryResult true results (Z.of_nat (length results)) execution_time
           sql now user_id session_id None in
       _audit_log self "query_execution_success" sql user_id session_id
         ("Returned " ++ str_int (Z.of_nat (length results)) ++ " rows in "
            ++ format_3f P execution_time ++ "s") ;;
       ret result)
      (fun e =>
         let error_msg := "Query execution failed: " ++ str_exn e in
         _audit_log self "query_execution_error" sql user_id session_id error_msg ;;
         raise (RuntimeError_from error_msg e)).


(** ** Derived read-only operations *)

Definition nl : string := String newline "".

Definition schema_tables_query : string :=
  join nl
    [ "";
      "                SELECT ";
      "                    TABLE_NAME,";
      "                    COLUMN_NAME,";
      "                    SPANNER_TYPE,";
      "                    IS_NULLABLE,";
      "                    ORDINAL_POSITION,";
      "                    COLUMN_DEFAULT";
      "                FROM INFORMATION_SCHEMA.COLUMNS";
      "                WHERE TABLE_SCHEMA = ''";
      "                ORDER BY TABLE_NAME, ORDINAL_POSITION";
      "            " ].

Definition schema_indexes_query : string :=
  join nl
    [ "";
      "                SELECT ";
      "                    TABLE_NAME,";
      "                    INDEX_NAME,";
      "                    INDEX_TYPE,";
      "                    IS_UNIQUE,";
      "                    IS_NULL_FILTERED";
      "                FROM INFORMATION_SCHEMA.INDEXES";
      "                WHERE TABLE_SCHEMA = ''";
      "                ORDER BY TABLE_NAME, INDEX_NAME";
      "            " ].

Definition stats_columns_query (table_name : string) : string :=
  join nl
    [ "";
      "                SELECT ";
      "                    COLUMN_NAME,";
      "                    SPANNER_TYPE,";
      "                    IS_NULLABLE,";
      "                    ORDINAL_POSITION";
      "                FROM INFORMATION_SCHEMA.COLUMNS";
      "                WHERE TABLE_NAME = '" ++ table_name ++ "' AND TABLE_SCHEMA = ''";
      "                ORDER BY ORDINAL_POSITION";
      "            " ].

Definition stats_indexes_query (table_name : string) : string :=
  join nl
    [ "";
      "                SELECT ";
      "                    INDEX_NAME,";
      "                    INDEX_TYPE,";
      "                    IS_UNIQUE,";
      "                    IS_NULL_FILTERED";
      "                FROM INFORMATION_SCHEMA.INDEXES";
      "                WHERE TABLE_NAME = '" ++ table_name ++ "' AND TABLE_SCHEMA = ''";
      "                ORDER BY INDEX_NAME";
      "            " ].

(** First loop of [get_schema_info]. *)
Fixpoint collect_columns (rows : list (dict F))
    (tables : list (value * table_entry F)) (total_columns : Z)
    : M (list (value * table_entry F) * Z) :=
  match rows with
  | [] => ret (tables, total_columns)
  | row :: rest =>
      table_name <- getitem row "TABLE_NAME" ;;
      known <- has_key tables table_name ;;
      let tables :=
        if known then tables
        else assoc_set tables table_name (mkTableEntry [] 0) in
      name <- getitem row "COLUMN_NAME" ;;
      type <- getitem row "SPANNER_TYPE" ;;
      nullable <- getitem row "IS_NULLABLE" ;;
      position <- getitem row "ORDINAL_POSITION" ;;
      default <- getitem row "COLUMN_DEFAULT" ;;
      let column_info :=
        obj [ ("name", name); ("type", type);
              ("nullable", VBool (eq_str nullable "YES"));
              ("position", position); ("default", default) ] in
      let tables :=
        match assoc_get tables table_name with
        | Some e =>
            assoc_set tables table_name
              (mkTableEntry (columns e ++ [column_info])%list (column_count e + 1)%Z)
        | None => tables
        end in
      collect_columns rest tables (total_columns + 1)%Z
  end.

Definition index_info_of (row : (dict F)) (name : value) : M value :=
  type <- getitem row "INDEX_TYPE" ;;
  unique <- getitem row "IS_UNIQUE" ;;
  null_filtered <- getitem row "IS_NULL_FILTERED" ;;
  ret (obj [ ("name", name); ("type", type);
             ("unique", VBool (eq_str unique "YES"));
             ("null_filtered", VBool (eq_str null_filtered "YES")) ]).

(** Second loop of [get_schema_info]. *)
Fixpoint collect_indexes (rows : list (dict F))
    (indexes : list (value * list value)) (total_indexes : Z)
    : M (list (value * list value) * Z) :=
  match rows with
  | [] => ret (indexes, total_indexes)
  | row :: rest =>
      table_name <- getitem row "TABLE_NAME" ;;
      index_name <- getitem row "INDEX_NAME" ;;
      known <- has_key indexes table_name ;;
      let indexes := if known then indexes else assoc_set indexes table_name [] in
      index_info <- index_info_of row index_name ;;
      let indexes :=
        match assoc_get indexes table_name with
        | Some l => assoc_set indexes table_name (l ++ [index_info])%list
        | None => indexes
        end in
      collect_indexes rest indexes (total_indexes + 1)%Z
  end.

Definition get_schema_info (self : SpannerAgent F) : M value :=
  try_except
    (tables_result <- execute_query self schema_tables_query "system" "schema_query" ;;
     indexes_result <- execute_query self schema_indexes_query "system" "schema_query" ;;
     last_updated <- utcnow ;;
     collected <- collect_columns (data tables_result) [] 0 ;;
     let '(tables, total_columns) := collected in
     collected <- collect_indexes (data indexes_result) [] 0 ;;
     let '(indexes, total_indexes) := collected in
     ret (obj
       [ ("tables",
          VDict (map (fun ke =>
                   (fst ke, obj [ ("columns", VList (columns (snd ke)));
                                  ("column_count", VInt (column_count (snd ke))) ]))
                 tables));
         ("indexes", VDict (map (fun kl => (fst kl, VList (snd kl))) indexes));
         ("metadata",
          obj [ ("total_tables", VInt (Z.of_nat (length tables)));
                ("total_columns", VInt total_columns);
                ("total_indexes", VInt total_indexes);
                ("last_updated", VStr last_updated) ]) ]))
    (fun e =>
       let error_msg := "Failed to retrieve schema information: " ++ str_exn e in
       logger_error error_msg ;;
       _audit_log self "schema_query_error" "schema_query" "system" "schema_query"
         error_msg ;;
       raise (RuntimeError_from error_msg e)).

(** [text.isoformat()] on a [str]: there is no such attribute. *)
Definition str_isoformat (text : string) : M string :=
  raise (AttributeError "'str' object has no attribute 'isoformat'").

Definition get_database_health (self : SpannerAgent F) : M value :=
  try_except
    (created_at <- utcnow ;;
     tested_at <- utcnow ;;
     let health_info := mkProbeState "healthy" "connected" None VNone 0 in
     (* Until the statement that can raise, the inner [try] leaves
        [health_info] as it was, so the handler starts from it. *)
     health_info <-
       try_except
         (let test_query := "SELECT 1 as health_check" in
          result <- execute_query self test_query "system" "health_check" ;;
          let connection_status := "connected" in
          last_query_time <- str_isoformat (timestamp result) ;;
          ret (mkProbeState (status health_info) connection_status
                 (connection_error health_info) (VStr last_query_time)
                 (total_queries health_info + 1)%Z))
         (fun e =>
            ret (mkProbeState "unhealthy" "disconnected" (Some (str_exn e))
                   (last_query_time health_info) (total_queries health_info))) ;;
     ret (obj
       [ ("status", VStr (status health_info));
         ("timestamp", VStr created_at);
         ("project_id", opt_str (project_id self));
         ("instance_id", VStr (instance_id self));
         ("database_id", VStr (database_id self));
         ("connection",
          obj ([ ("status", VStr (connection_status health_info));
                 ("tested_at", VStr tested_at) ]
               ++ match connection_error health_info with
                  | Some err => [ ("error", VStr err) ]
                  | None => []
                  end)%list);
         ("performance",
          obj [ ("last_query_time", last_query_time health_info);
                ("average_query_time", VFloat (float_zero P));
                ("total_queries", VInt (total_queries health_info)) ]);
         ("resources",
          obj [ ("cpu_usage", VStr "unknown");
                ("memory_usage", VStr "unknown");
                ("storage_usage", VStr "unknown") ]) ]))
    (fun e =>
       let error_msg := "Failed to retrieve database health: " ++ str_exn e in
       logger_error error_msg ;;
       now <- utcnow ;;
       ret (obj [ ("status", VStr "error");
                  ("error", VStr error_msg);
                  ("timestamp", VStr now) ])).

(** The text analysis of [analyze_query_performance]: the recommendations
    and the complexity after the four checks. *)
Definition performance_findings (sql : string) : list string * string :=
  let sql_upper := upper sql in
  let st : list string * string := ([], "low") in
  let st :=
    if contains "SELECT *" sql_upper
    then ((fst st ++ ["Consider specifying only needed columns instead of SELECT *"])%list,
          "medium")
    else st in
  let st :=
    if contains "ORDER BY" sql_upper && negb (contains "LIMIT" sql_upper)
    then ((fst st ++ ["Add LIMIT clause when using ORDER BY to improve performance"])%list,
          "medium")
    else st in
  let st :=
    if contains "LIKE '%pattern%'" sql || contains "LIKE 'pattern%'" sql
    then ((fst st ++ ["Consider using indexes for LIKE queries with wildcards"])%list,
          "high")
    else st in
  let st :=
    if contains "JOIN" sql_upper
    then ((fst st ++ ["Ensure proper indexes exist on JOIN columns"])%list, "medium")
    else st in
  st.

Definition rate_complexity (findings : list string * string) : string :=
  if Nat.ltb 3 (length (fst findings)) then "high"
  else if Nat.ltb 1 (length (fst findings)) then "medium"
  else snd findings.

Definition rate_cost (complexity : string) : string :=
  if String.eqb complexity "high" then "high"
  else if String.eqb complexity "medium" then "medium"
  else "low".

Definition analyze_query_performance (self : SpannerAgent F) (sql : string)
    : M value :=
  try_except
    (created_at <- utcnow ;;
     let findings := performance_findings sql in
     let complexity := rate_complexity findings in
     ret (obj
       [ ("sql", VStr sql);
         ("timestamp", VStr created_at);
         ("analysis",
          obj [ ("complexity", VStr complexity);
                ("estimated_cost", VStr (rate_cost complexity));
                ("recommendations", VList (map VStr (fst findings))) ]);
         ("execution_plan", VNone) ]))
    (fun e =>
       let error_msg := "Failed to analyze query performance: " ++ str_exn e in
       logger_error error_msg ;;
       now <- utcnow ;;
       ret (obj [ ("error", VStr error_msg); ("timestamp", VStr now) ])).

Definition column_details_of (row : (dict F)) : M value :=
  name <- getitem row "COLUMN_NAME" ;;
  type <- getitem row "SPANNER_TYPE" ;;
  nullable <- getitem row "IS_NULLABLE" ;;
  position <- getitem row "ORDINAL_POSITION" ;;
  ret (obj [ ("name", name); ("type", type);
             ("nullable", VBool (eq_str nullable "YES"));
             ("position", position) ]).

(** [for row in rows: details.append(describe(row))] *)
Fixpoint collect_details (describe : (dict F) -> M value) (rows : list (dict F))
    (details : list value) : M (list value) :=
  match rows with
  | [] => ret details
  | row :: rest =>
      info <- describe row ;;
      collect_details describe rest (details ++ [info])%list
  end.

Definition get_table_statistics (self : SpannerAgent F) (table_name : string)
    : M value :=
  try_except
    (columns_result <-
       execute_query self (stats_columns_query table_name) "system" "table_stats" ;;
     indexes_result <-
       execute_query self (stats_indexes_query table_name) "system" "table_stats" ;;
     created_at <- utcnow ;;
     column_details <- collect_details column_details_of (data columns_result) [] ;;
     index_details <-
       collect_details
         (fun row => name <- getitem row "INDEX_NAME" ;; index_info_of row name)
         (data indexes_result) [] ;;
     ret (obj
       [ ("table_name", VStr table_name);
         ("timestamp", VStr created_at);
         ("columns",
          obj [ ("count", VInt (Z.of_nat (length (data columns_result))));
                ("details", VList column_details) ]);
         ("indexes",
          obj [ ("count", VInt (Z.of_nat (length (data indexes_result))));
                ("details", VList index_details) ]);
         ("metadata",
          obj [ ("project_id", opt_str (project_id self));
                ("instance_id", VStr (instance_id self));
                ("database_id", VStr (database_id self)) ]) ]))
    (fun e =>
       let error_msg :=
         "Failed to retrieve table statistics for " ++ table_name ++ ": "
           ++ str_exn e in
       logger_error error_msg ;;
       now <- utcnow ;;
       ret (obj [ ("error", VStr error_msg);
                  ("table_name", VStr table_name);
                  ("timestamp", VStr now) ])).

End Agent.

Arguments key_eqb {P} a b.
Arguments assoc_get {P V} d k.
Arguments assoc_set {P V} d k v.
Arguments dict_get {P} d k.
Arguments dict_set {P} d k v.
Arguments dict_zip {P} field_names values.
Arguments getitem {P} row key.
Arguments _create_security_context {P} self user_id session_id.
Arguments _audit_log {P} self event_type sql user_id session_id details.
Arguments fetch_rows {P} rows field_names max_rows results row_count.
Arguments run_in_snapshot {P} self sql security_context.
Arguments execute_query {P} self sql user_id session_id.
Arguments get_schema_info {P} self.
Arguments get_database_health {P} self.
Arguments analyze_query_performance {P} self sql.
Arguments get_table_statistics {P} self table_name.

End SpannerAgent.

(* ================================================================== *)
(** * The tool functions handed to the hosting runtime                 *)
(* ================================================================== *)

(** The text produced by [json.dumps(document, indent=2, default=str)],
    kept as the document it renders. *)
Inductive json (F : Type) : Type :=
| Json (document : Runtime.value F).
Arguments Json {F} document.

(** The methods the tool functions call on the process-wide agent object.
    The tools rely on nothing but this interface, so what is proved of
    them holds whatever the methods do. *)
Module Methods.

Record t (F : Type) : Type := mk {
  execute_query :
    string -> string -> string -> Runtime.M (SpannerAgent.QueryResult F);
  get_schema_info : Runtime.M (Runtime.value F);
  get_database_health : Runtime.M (Runtime.value F);
  analyze_query_performance : string -> Runtime.M (Runtime.value F);
  get_table_statistics : string -> Runtime.M (Runtime.value F)
}.

(** The methods of an instance of [SpannerAgent]. *)
Definition of_agent {P : Runtime.Platform}
    (self : SpannerAgent.SpannerAgent (Runtime.float P)) : t (Runtime.float P) :=
  mk (SpannerAgent.execute_query self)
     (SpannerAgent.get_schema_info self)
     (SpannerAgent.get_database_health self)
     (SpannerAgent.analyze_query_performance self)
     (SpannerAgent.get_table_statistics self).

End Methods.

Section Tools.

Import Runtime.
Local Open Scope py_scope.

Variable P : Platform.

(** The process-wide [spanner_agent = SpannerAgent()]. *)
Variable spanner_agent : Methods.t (float P).

Local Abbreviation value := (Runtime.value (float P)).
Local Abbreviation obj := (@SpannerAgent.obj (float P)).
Local Abbreviation utcnow := (SpannerAgent.utcnow P).

Definition json_dumps (document : value) : json (float P) := Json document.

Definition run_spanner_query (sql user_id session_id : string) : M value :=
  try_except
    (result <- Methods.execute_query spanner_agent sql user_id session_id ;;
     ret (SpannerAgent.asdict result))
    (fun e =>
       now <- utcnow ;;
       ret (obj [ ("success", VBool false);
                  ("error", VStr (str_exn e));
                  ("timestamp", VStr now);
                  ("user_id", VStr user_id);
                  ("session_id", VStr session_id) ])).

Definition get_spanner_schema : M (json (float P)) :=
  try_except
    (schema_info <- Methods.get_schema_info spanner_agent ;;
     ret (json_dumps schema_info))
    (fun e =>
       now <- utcnow ;;
       ret (json_dumps
              (obj [ ("error", VStr ("Failed to retrieve schema: " ++ str_exn e));
                     ("timestamp", VStr now) ]))).

Definition get_database_health : M (json (float P)) :=
  try_except
    (health_info <- Methods.get_database_health spanner_agent ;;
     ret (json_dumps health_info))
    (fun e =>
       now <- utcnow ;;
       ret (json_dumps
              (obj [ ("error",
                      VStr ("Failed to retrieve health information: " ++ str_exn e));
                     ("timestamp", VStr now) ]))).

Definition analyze_query_performance (sql : string) : M (json (float P)) :=
  try_except
    (analysis_result <- Methods.analyze_query_performance spanner_agent sql ;;
     ret (json_dumps analysis_result))
    (fun e =>
       now <- utcnow ;;
       ret (json_dumps
              (obj [ ("error",
                      VStr ("Failed to analyze query performance: " ++ str_exn e));
                     ("timestamp", VStr now) ]))).

Definition get_table_statistics (table_name : string) : M (json (float P)) :=
  try_except
    (table_stats <- Methods.get_table_statistics spanner_agent table_name ;;
     ret (json_dumps table_stats))
    (fun e =>
       now <- utcnow ;;
       ret (json_dumps
              (obj [ ("error",
                      VStr ("Failed to get table statistics: " ++ str_exn e));
                     ("table_name", VStr table_name);
                     ("timestamp", VStr now) ]))).

End Tools.

Arguments run_spanner_query {P} spanner_agent sql user_id session_id.
Arguments get_spanner_schema {P} spanner_agent.
Arguments get_database_health {P} spanner_agent.
Arguments analyze_query_performance {P} spanner_agent sql.
Arguments get_table_statistics {P} spanner_agent table_name.

(* ================================================================== *)
(** * Notions used to state the properties                            *)
(* ================================================================== *)

Module Observations.
Import Text Runtime SpannerSecurityValidator SpannerAgent.

(** Follows the spec's words: the statement's leading token after leading
    whitespace, read on the upper-cased text as the validator does. *)
Fixpoint word_prefix (s : string) : string :=
  match s with
  | String c s' => if isword c then String c (word_prefix s') else EmptyString
  | EmptyString => EmptyString
  end.

Definition spec_leading_keyword (sql : string) : string :=
  word_prefix (lstrip (upper sql)).

(** The world once the clock has been read one more time. *)
Definition clock_read (w : World) : World := snd (tick w).

(** The world once [logger.error] has written a line. *)
Definition logged (msg : string) (w : World) : World := snd (logger_error msg w).

(** What one pass through the [with] block asks of the database. *)
Definition snapshot_requests (sql : string) (evs : list DbEvent) : Prop :=
  exists n,
    evs = [OpenSnapshot] \/
    evs = ([OpenSnapshot; ExecuteSql sql] ++ repeat FetchRow n ++ [CloseSnapshot])%list.

Section WithPlatform.

Variable P : Platform.

Local Abbreviation F := (float P).
Local Abbreviation value := (Runtime.value (float P)).

(** The world once [_audit_log] has run. *)
Definition audited (self : SpannerAgent F)
    (event_type sql user_id session_id details : string) (w : World) : World :=
  snd (_audit_log self event_type sql user_id session_id details w).

(** The audit line written at clock reading [n]. *)
Definition audit_line (self : SpannerAgent F)
    (event_type sql user_id session_id details : string) (n : nat) : AuditEntry :=
  mkAuditEntry (utcnow_isoformat P n) event_type user_id session_id sql details
    (project_id self) (instance_id self) (database_id self).

(** [v[key]] read off a returned dictionary. *)
Definition field (v : value) (key : string) : option value :=
  match v with
  | VDict d => dict_get (P:=P) d (VStr key)
  | _ => None
  end.

(** A returned dictionary without its ["timestamp"] entry. *)
Definition without_timestamp (v : value) : value :=
  match v with
  | VDict d =>
      VDict (filter (fun kv => negb (key_eqb (P:=P) (fst kv) (VStr "timestamp"))) d)
  | _ => v
  end.

(** The health dictionary built once the probe has gone wrong with [err]. *)
Definition unhealthy_report (self : SpannerAgent F) (w : World) (err : string)
    : value :=
  obj [ ("status", VStr "unhealthy");
        ("timestamp", VStr (utcnow_isoformat P (clock w)));
        ("project_id", opt_str (project_id self));
        ("instance_id", VStr (instance_id self));
        ("database_id", VStr (database_id self));
        ("connection",
         obj [ ("status", VStr "disconnected");
               ("tested_at", VStr (utcnow_isoformat P (S (clock w))));
               ("error", VStr err) ]);
        ("performance",
         obj [ ("last_query_time", VNone);
               ("average_query_time", VFloat (float_zero P));
               ("total_queries", VInt 0) ]);
        ("resources",
         obj [ ("cpu_usage", VStr "unknown");
               ("memory_usage", VStr "unknown");
               ("storage_usage", VStr "unknown") ]) ].

End WithPlatform.

End Observations.

(* ================================================================== *)
(** * A concrete platform and databases for closed examples            *)
(* ================================================================== *)

Module Sample.
Import Runtime.

Definition digits3 (ms : Z) : string :=
  (if (ms <? 100)%Z then "0" else "") ++ (if (ms <? 10)%Z then "0" else "")
    ++ SpannerAgent.str_int ms.

(** Floats stood in for by whole milliseconds; the clock advances one
    millisecond per reading. *)
Definition platform : Platform :=
  mkPlatform 0%Z Z.sub Z.eqb
    (fun ms => SpannerAgent.str_int (ms / 1000) ++ "." ++ digits3 (ms mod 1000))
    (fun n => "2024-01-01T00:00:00." ++ digits3 (Z.of_nat n))
    (fun n => Z.of_nat n).

(** A database answering every statement with the same three rows. *)
Definition three_rows : SpannerAgent.Database (float platform) :=
  fun _ _ =>
    SpannerAgent.ResultSet ["id"; "name"]
      (SpannerAgent.NextRow [VInt 1; VStr "ann"]
         (SpannerAgent.NextRow [VInt 2; VStr "bob"]
            (SpannerAgent.NextRow [VInt 3; VStr "cy"] SpannerAgent.Exhausted))).

(** A database whose every execution fails. *)
Definition unavailable : SpannerAgent.Database (float platform) :=
  fun _ _ => SpannerAgent.ExecuteFails (Exn "ServiceUnavailable" "503 unavailable").

Definition agent (db : SpannerAgent.Database (float platform)) (cap : Z) (audit : bool)
    : SpannerAgent.SpannerAgent (float platform) :=
  SpannerAgent.mkSpannerAgent (Some "proj") "inst" "db" true cap 30 audit db.

(** A text of [n] letters. *)
Fixpoint filler (n : nat) : string :=
  match n with
  | O => EmptyString
  | S n' => String "x" (filler n')
  end.

Definition read_only_context : SecurityContext :=
  new_SecurityContext "default" "default" true 1000 30 None.

Definition read_write_context : SecurityContext :=
  new_SecurityContext "default" "default" false 1000 30 None.

(** A run under a cap of 2 against a database holding three rows. *)
Definition capped_run :=
  Eval vm_compute in
    SpannerAgent.execute_query (agent three_rows 2 true)
      "SELECT id, name FROM users" "default" "default" initial_world.

(** The probe of the health operation against a database that answers. *)
Definition probe_run :=
  Eval vm_compute in
    SpannerAgent.execute_query (agent three_rows 1000 true)
      "SELECT 1 as health_check" "system" "health_check"
      (Observations.clock_read (Observations.clock_read initial_world)).

(** A call that the database fails. *)
Definition failed_run :=
  Eval vm_compute in
    SpannerAgent.execute_query (agent unavailable 1000 true)
      "SELECT id, name FROM users" "default" "default" initial_world.

End Sample.

(* ================================================================== *)
(** * Start-up: [SpannerAgent.__init__]                                *)
(* ================================================================== *)

Module Startup.
Import Text Runtime.

(** [os.environ]: the variables that are set, with their values. *)
Definition environ : Type := string -> option string.

(** [os.getenv(name, default)] *)
Definition getenv (env : environ) (name default : string) : string :=
  match env name with
  | Some v => v
  | None => default
  end.

(** [os.environ[name]] *)
Definition environ_item (env : environ) (name : string) : outcome string :=
  match env name with
  | Some v => Return v
  | None => Raise (KeyError name)
  end.

(** [s.lower()] *)
Fixpoint lower (s : string) : string :=
  match s with
  | EmptyString => EmptyString
  | String c s' => String (lower_char c) (lower s')
  end.

(** [str(b)] for a [bool] and [str(x)] for an optional [str]. *)
Definition str_bool (b : bool) : string := if b then "True" else "False".

Definition str_optional (o : option string) : string :=
  match o with
  | Some v => v
  | None => "None"
  end.

Section Init.

Variable F : Type.

(** The builtin [int] on a [str], which returns or raises [ValueError]. *)
Variable int : string -> outcome Z.

(** [spanner.Client(project=p).instance(i).database(d)]: the handle on the
    database, unless building it raises. *)
Variable connect :
  option string -> string -> string -> outcome (SpannerAgent.Database F).

(** [SpannerAgent.__init__]: the agent built from the environment together
    with the two lines it logs, or the exception that ends the start-up. *)
Definition __init__ (env : environ)
    : outcome (SpannerAgent.SpannerAgent F * list string) :=
  let project_id := env "SPANNER_PROJECT" in
  match environ_item env "SPANNER_INSTANCE" with
  | Raise e => Raise e
  | Return instance_id =>
  match environ_item env "SPANNER_DATABASE" with
  | Raise e => Raise e
  | Return database_id =>
  let read_only :=
    String.eqb (lower (getenv env "SPANNER_READ_ONLY" "true")) "true" in
  match int (getenv env "SPANNER_MAX_ROWS" "1000") with
  | Raise e => Raise e
  | Return max_rows =>
  match int (getenv env "SPANNER_QUERY_TIMEOUT" "30") with
  | Raise e => Raise e
  | Return query_timeout =>
  let enable_audit :=
    String.eqb (lower (getenv env "ENABLE_AUDIT_LOGGING" "true")) "true" in
  match connect project_id instance_id database_id with
  | Raise e => Raise e
  | Return database =>
      Return
        (SpannerAgent.mkSpannerAgent project_id instance_id database_id
           read_only max_rows query_timeout enable_audit database,
         [ "Spanner Agent initialized for " ++ str_optional project_id ++ "/"
             ++ instance_id ++ "/" ++ database_id;
           "Read-only mode: " ++ str_bool read_only ++ ", Max rows: "
             ++ SpannerAgent.str_int max_rows ++ ", Timeout: "
             ++ SpannerAgent.str_int query_timeout ++ "s" ])
  end end end end end.

End Init.

End Startup.

(* ================================================================== *)
(** * Further notions used to state properties                         *)
(* ================================================================== *)

Module Notions.
Import Text Runtime.

(** The last character of a text, if it has one. *)
Fixpoint last_char (s : string) : option ascii :=
  match s with
  | EmptyString => None
  | String c EmptyString => Some c
  | String _ s' => last_char s'
  end.

(** Whether a text is made of blanks only. *)
Fixpoint all_blank (s : string) : bool :=
  match s with
  | EmptyString => true
  | String c t => isspace c && all_blank t
  end.

(** The character just before the position reached once [pre] has been
    read, [prev] being the one before [pre]. *)
Definition char_before (prev : option ascii) (pre : string) : option ascii :=
  match last_char pre with
  | Some c => Some c
  | None => prev
  end.

(** The nine statement keywords of the first denylist pattern and the four
    leading keywords of [ALLOWED_PATTERNS]. *)
Definition mutation_keywords : list string :=
  [ "DELETE"; "DROP"; "TRUNCATE"; "ALTER"; "CREATE"; "INSERT"; "UPDATE";
    "GRANT"; "REVOKE" ].

Definition read_keywords : list string :=
  [ "SELECT"; "WITH"; "SHOW"; "DESCRIBE" ].

(** The five texts [validate_query] can return as its message. *)
Definition is_verdict_text (msg : string) : Prop :=
  msg = "" \/
  (exists pattern,
     In pattern SpannerSecurityValidator.DANGEROUS_PATTERNS /\
     msg = "Query contains forbidden pattern: " ++ pattern) \/
  msg = "Read-only mode: Only SELECT queries are allowed" \/
  msg = "Query too complex: Too many SELECT statements" \/
  msg = "Query too long: Maximum 10,000 characters allowed".

(** The sequence of literal characters of [text], followed by [r]. *)
Fixpoint literal (text : string) (r : Re.regex) : Re.regex :=
  match text with
  | EmptyString => r
  | String c t => Re.RCat (Re.RChar c) (literal t r)
  end.

(** The compiled form of ["^\s*KEYWORD\s+"]. *)
Definition leading_keyword_shape (keyword : string) : Re.regex :=
  Re.RCat Re.RBol
    (Re.RCat (Re.RStar true Re.RSpace)
       (literal keyword (Re.RCat Re.RSpace (Re.RStar true Re.RSpace)))).

Section Streams.

Variable F : Type.

(** A result set that streams the given rows and then ends. *)
Fixpoint stream_of (rows : list (list (Runtime.value F)))
    : SpannerAgent.row_stream F :=
  match rows with
  | [] => SpannerAgent.Exhausted
  | r :: rest => SpannerAgent.NextRow r (stream_of rest)
  end.

End Streams.

(** What a call of [execute_query] on [sql] may ask of the database: nothing,
    a snapshot that could not be opened, or one snapshot, opened and closed,
    in which [sql] is executed and [n] rows are requested. *)
Definition call_requests (sql : string) (n : nat) (evs : list DbEvent) : Prop :=
  evs = [] \/ evs = [OpenSnapshot] \/
  evs = ([OpenSnapshot; ExecuteSql sql] ++ repeat FetchRow n ++ [CloseSnapshot])%list.

(** Whether the LIKE check of the performance advisor fires on [sql]. *)
Definition like_flagged (sql : string) : bool :=
  contains "LIKE '%pattern%'" sql || contains "LIKE 'pattern%'" sql.

(** A start-up environment and the builtins for closed examples. *)
Definition sample_environ : Startup.environ :=
  fun name =>
    if String.eqb name "SPANNER_INSTANCE" then Some "inst"
    else if String.eqb name "SPANNER_DATABASE" then Some "db"
    else None.

Definition negative_cap_environ : Startup.environ :=
  fun name =>
    if String.eqb name "SPANNER_MAX_ROWS" then Some "-1"
    else sample_environ name.

Definition sample_int (text : string) : outcome Z :=
  if String.eqb text "1000" then Return 1000%Z
  else if String.eqb text "30" then Return 30%Z
  else if String.eqb text "-1" then Return (-1)%Z
  else Raise (ValueError "invalid literal for int() with base 10").

Definition sample_connect (project : option string) (instance db : string)
    : outcome (SpannerAgent.Database (float Sample.platform)) :=
  Return Sample.three_rows.

(** The agents that start from the two environments, and the lines each
    start-up logs. *)
Definition started_agent : SpannerAgent.SpannerAgent (float Sample.platform) :=
  SpannerAgent.mkSpannerAgent None "inst" "db" true 1000 30 true Sample.three_rows.

Definition started_lines : list string :=
  [ "Spanner Agent initialized for None/inst/db";
    "Read-only mode: True, Max rows: 1000, Timeout: 30s" ].

Definition negative_cap_agent : SpannerAgent.SpannerAgent (float Sample.platform) :=
  SpannerAgent.mkSpannerAgent None "inst" "db" true (-1) 30 true Sample.three_rows.

Definition negative_cap_lines : list string :=
  [ "Spanner Agent initialized for None/inst/db";
    "Read-only mode: True, Max rows: -1, Timeout: 30s" ].

(** A call on the agent started with the negative cap. *)
Definition negative_cap_run :=
  Eval vm_compute in
    SpannerAgent.execute_query negative_cap_agent
      "SELECT id, name FROM users" "default" "default" initial_world.

(** A call that the policy engine rejects. *)
Definition rejected_run :=
  Eval vm_compute in
    SpannerAgent.execute_query (Sample.agent Sample.three_rows 1000 true)
      "DROP TABLE users" "default" "default" initial_world.

(** The probe of the health operation against a database that is down. *)
Definition failed_probe_run :=
  Eval vm_compute in
    SpannerAgent.execute_query (Sample.agent Sample.unavailable 1000 true)
      "SELECT 1 as health_check" "system" "health_check"
      (Observations.clock_read (Observations.clock_read initial_world)).

End Notions.

(* ================================================================== *)
(** * Properties of the policy engine                                  *)
(* ================================================================== *)

Unset Implicit Arguments.

Module ValidatorFacts.
Import Text Re SpannerSecurityValidator Observations.

(** Every pattern of both lists is inside the fragment read by [compile]. *)
Lemma patterns_compile :
  forallb (fun p => match compile p with Some _ => true | None => false end)
          (DANGEROUS_PATTERNS ++ ALLOWED_PATTERNS)%list = true.
Proof. vm_compute. reflexivity. Qed.

(** Zero repetitions always satisfy a starred expression. *)
Lemma rmatch_star_skip (fl : flags) (g : bool) (r : regex)
    (prev : option ascii) (s : string) (k : option ascii -> string -> bool) :
  k prev s = true -> rmatch fl (RStar g r) prev s k = true.
Proof.
  intros Hk. simpl. destruct (String.length s); [exact Hk |].
  destruct g; rewrite Hk; auto using orb_true_r.
Qed.

(** [SELECT] followed by a blank at the very start has the first shape of
    [ALLOWED_PATTERNS]. *)
Lemma select_shape_matches (c : ascii) (rest : string) :
  isspace c = true ->
  match_ "^\s*SELECT\s+" ("SELECT" ++ String c rest) = true.
Proof.
  intros Hc. unfold match_.
  change (compile "^\s*SELECT\s+") with
    (Some (RCat RBol (RCat (RStar true RSpace)
       (RCat (RChar "S") (RCat (RChar "E") (RCat (RChar "L") (RCat (RChar "E")
         (RCat (RChar "C") (RCat (RChar "T")
           (RCat RSpace (RStar true RSpace))))))))))).
  change (rmatch no_flags (RStar true RSpace) None ("SELECT" ++ String c rest)
            (fun p' s' =>
               rmatch no_flags
                 (RCat (RChar "S") (RCat (RChar "E") (RCat (RChar "L")
                   (RCat (RChar "E") (RCat (RChar "C") (RCat (RChar "T")
                     (RCat RSpace (RStar true RSpace)))))))) p' s' accept) = true).
  apply rmatch_star_skip.
  change (rmatch no_flags RSpace (Some "T"%char) (String c rest)
            (fun p' s' => rmatch no_flags (RStar true RSpace) p' s' accept) = true).
  simpl rmatch at 1. rewrite Hc.
  destruct (String.length rest); [reflexivity | apply orb_true_r].
Qed.

Lemma allowed_shape_select (c : ascii) (rest : string) :
  isspace c = true -> allowed_shape ("SELECT" ++ String c rest) = true.
Proof.
  intros Hc. unfold allowed_shape, ALLOWED_PATTERNS.
  cbn [existsb]. rewrite (select_shape_matches c rest Hc). reflexivity.
Qed.

(** A denylist pattern found in the normalised text settles the verdict,
    whatever the context. *)
Lemma dangerous_rejected (sql pattern : string) (ctx : SecurityContext) :
  dangerous_pattern (sql_upper sql) = Some pattern ->
  validate_query sql ctx = (false, "Query contains forbidden pattern: " ++ pattern).
Proof. intros H. unfold validate_query. rewrite H. reflexivity. Qed.

Lemma dangerous_pattern_found (text p : string) :
  In p DANGEROUS_PATTERNS ->
  search p text (Flags true true) = true ->
  exists q, dangerous_pattern text = Some q /\ In q DANGEROUS_PATTERNS.
Proof.
  intros Hin Hs. unfold dangerous_pattern.
  destruct (find (fun pattern => search pattern text (Flags true true))
              DANGEROUS_PATTERNS) as [q |] eqn:E.
  - exists q. split; [reflexivity |]. apply find_some in E. tauto.
  - exfalso. apply (find_none _ _ E) in Hin. simpl in Hin. congruence.
Qed.

(** Whatever the context, a text in whose normalised form a denylist
    pattern is found is rejected. *)
Lemma denylisted_text_rejected (sql p : string) (ctx : SecurityContext) :
  In p DANGEROUS_PATTERNS ->
  search p (sql_upper sql) (Flags true true) = true ->
  fst (validate_query sql ctx) = false.
Proof.
  intros Hin Hs.
  destruct (dangerous_pattern_found (sql_upper sql) p Hin Hs) as [q [Hq _]].
  rewrite (dangerous_rejected sql q ctx Hq). reflexivity.
Qed.

Example drop_table_rejected :
  validate_query "DROP TABLE users" Sample.read_write_context
    = (false,
       "Query contains forbidden pattern: "
         ++ "\b(DELETE|DROP|TRUNCATE|ALTER|CREATE|INSERT|UPDATE|GRANT|REVOKE)\b").
Proof. vm_compute. reflexivity. Qed.

Example lower_case_keyword_rejected :
  fst (validate_query "select a from t union  all select b from u"
         Sample.read_write_context) = false.
Proof. vm_compute. reflexivity. Qed.

Example keyword_inside_identifier_accepted :
  validate_query "SELECT deleted_at FROM users" Sample.read_only_context
    = (true, "").
Proof. vm_compute. reflexivity. Qed.

Example overlong_select_rejected :
  let sql := "SELECT " ++ Sample.filler (Z.to_nat 9994) in
  String.length sql = Z.to_nat 10001 /\
  validate_query sql Sample.read_only_context
    = (false, "Query too long: Maximum 10,000 characters allowed").
Proof. vm_compute. split; reflexivity. Qed.

(** The verdict depends on the context through [read_only] alone. *)
Lemma validate_query_read_only (sql : string) (c1 c2 : SecurityContext) :
  read_only c1 = read_only c2 -> validate_query sql c1 = validate_query sql c2.
Proof. intros H. unfold validate_query. rewrite H. reflexivity. Qed.

Ltac closed_goal :=
  vm_compute;
  first [ reflexivity | discriminate | intro; discriminate
        | repeat constructor ].

(** C1 (as stated) fails at a statement whose leading keyword SELECT is not
    followed by a blank: it names no denylisted pattern, has one SELECT and
    17 characters, and is still rejected in read-only mode. *)
Lemma select_without_blank_rejected :
  let sql := "SELECT*FROM users" in
  spec_leading_keyword sql = "SELECT" /\
  dangerous_pattern sql = None /\
  dangerous_pattern (sql_upper sql) = None /\
  (count "SELECT" (sql_upper sql) <= 3)%nat /\
  (Z.of_nat (String.length sql) <= 10000)%Z /\
  read_only Sample.read_only_context = true /\
  validate_query sql Sample.read_only_context
    = (false, "Read-only mode: Only SELECT queries are allowed").
Proof. repeat split; closed_goal. Qed.

(** C1 (amended): a statement without the three letters that [str.upper]
    takes out of the code points below 256, whose normalised text begins
    with SELECT followed by a blank, in which no denylist pattern is found,
    which has at most 3 occurrences of SELECT and at most 10,000
    characters, is accepted under a read-only context: [validate_query]
    returns [(True, "")]. *)
Theorem validate_query_accepts_select
    (sql : string) (ctx : SecurityContext) (c : ascii) (rest : string) :
  upper_closed sql = true ->
  read_only ctx = true ->
  sql_upper sql = "SELECT" ++ String c rest ->
  isspace c = true ->
  dangerous_pattern (sql_upper sql) = None ->
  (count "SELECT" (sql_upper sql) <= 3)%nat ->
  (Z.of_nat (String.length sql) <= 10000)%Z ->
  validate_query sql ctx = (true, "").
Proof.
  intros _ Hro Hup Hc Hd Hcount Hlen. unfold validate_query.
  rewrite Hd, Hro, Hup, (allowed_shape_select c rest Hc).
  rewrite <- Hup. cbn [negb andb].
  destruct (Nat.ltb_spec 3 (count "SELECT" (sql_upper sql))) as [Hbad | _];
    [lia |].
  destruct (Z.ltb_spec 10000 (Z.of_nat (String.length sql))) as [Hbad | _];
    [lia | reflexivity].
Qed.

Lemma validate_query_accepts_select_witness :
  validate_query "SELECT id, name FROM users LIMIT 5" Sample.read_only_context
    = (true, "").
Proof.
  apply (validate_query_accepts_select
           "SELECT id, name FROM users LIMIT 5" Sample.read_only_context
           " "%char "ID, NAME FROM USERS LIMIT 5");
    closed_goal.
Defined.

(** A block comment that stays on one line is found by the fourth pattern. *)
Lemma block_comment_on_one_line_rejected (ctx : SecurityContext) :
  validate_query "SELECT id /* hidden comment */ FROM users" ctx
    = (false, "Query contains forbidden pattern: /\*.*?\*/").
Proof. apply dangerous_rejected. vm_compute. reflexivity. Qed.

(** C3 (code evaluated at the failing input): a block comment that spans two
    lines is matched by no denylist pattern, so the statement carrying it is
    accepted under every context, read-only or not. *)
Theorem block_comment_over_two_lines_accepted (ctx : SecurityContext) :
  let sql := "SELECT id /* hidden" ++ String newline "comment */ FROM users" in
  contains "/*" sql = true /\ contains "*/" sql = true /\
  dangerous_pattern (sql_upper sql) = None /\
  validate_query sql ctx = (true, "").
Proof.
  repeat split; try (vm_compute; reflexivity).
  destruct ctx as [u s ro rows t ops]. destruct ro; vm_compute; reflexivity.
Qed.

(** The columns statement of [get_table_statistics] names
    INFORMATION_SCHEMA.COLUMNS ahead of the interpolated table name, so the
    seventh pattern is found whatever that name is. *)
Lemma stats_columns_query_denylisted (table_name : string) :
  search "INFORMATION_SCHEMA\.(TABLES|COLUMNS)"
    (sql_upper (SpannerAgent.stats_columns_query table_name))
    (Flags true true) = true.
Proof. lazy. reflexivity. Qed.

Lemma stats_columns_query_rejected (table_name : string) (ctx : SecurityContext) :
  exists pattern,
    In pattern DANGEROUS_PATTERNS /\
    validate_query (SpannerAgent.stats_columns_query table_name) ctx
      = (false, "Query contains forbidden pattern: " ++ pattern).
Proof.
  destruct (dangerous_pattern_found
              (sql_upper (SpannerAgent.stats_columns_query table_name))
              "INFORMATION_SCHEMA\.(TABLES|COLUMNS)") as [q [Hq Hin]].
  - simpl. tauto.
  - apply stats_columns_query_denylisted.
  - exists q. split; [exact Hin | apply dangerous_rejected; exact Hq].
Qed.

Lemma schema_tables_query_rejected (ctx : SecurityContext) :
  validate_query SpannerAgent.schema_tables_query ctx
    = (false, "Query contains forbidden pattern: INFORMATION_SCHEMA\.(TABLES|COLUMNS)").
Proof. apply dangerous_rejected. vm_compute. reflexivity. Qed.

End ValidatorFacts.

(* ================================================================== *)
(** * Properties of the execution wrapper                              *)
(* ================================================================== *)

Module ExecutionFacts.
Import Text Runtime SpannerSecurityValidator SpannerAgent Observations.
Local Open Scope py_scope.

Section WithPlatform.

Variable P : Platform.

Local Abbreviation value := (Runtime.value (float P)).

Lemma audit_log_run (self : SpannerAgent (float P)) (ev sql u s d : string) (w : World) :
  _audit_log self ev sql u s d w = (Return tt, audited P self ev sql u s d w).
Proof.
  unfold audited, _audit_log. destruct (enable_audit self); reflexivity.
Qed.

Lemma audited_audit_log (self : SpannerAgent (float P)) (ev sql u s d : string) (w : World) :
  audit_log (audited P self ev sql u s d w) =
  (audit_log w ++
     if enable_audit self then [audit_line P self ev sql u s d (clock w)] else [])%list.
Proof.
  unfold audited, _audit_log. destruct (enable_audit self); simpl.
  - reflexivity.
  - symmetry. apply app_nil_r.
Qed.

Lemma audited_db_log (self : SpannerAgent (float P)) (ev sql u s d : string) (w : World) :
  db_log (audited P self ev sql u s d w) = db_log w.
Proof. unfold audited, _audit_log. destruct (enable_audit self); reflexivity. Qed.

Lemma audited_error_log (self : SpannerAgent (float P)) (ev sql u s d : string) (w : World) :
  error_log (audited P self ev sql u s d w) = error_log w.
Proof. unfold audited, _audit_log. destruct (enable_audit self); reflexivity. Qed.

Lemma bind_audit {A : Type} (self : SpannerAgent (float P)) (ev sql u s d : string)
    (k : unit -> M A) (w : World) :
  bind (_audit_log self ev sql u s d) k w = k tt (audited P self ev sql u s d w).
Proof. unfold bind. rewrite audit_log_run. reflexivity. Qed.

(** [execute_query], path by path. *)
Lemma execute_query_eq (self : SpannerAgent (float P)) (sql u s : string) (w : World) :
  execute_query self sql u s w =
  let ctx := _create_security_context self u s in
  match validate_query sql ctx with
  | (false, msg) =>
      (Raise (ValueError ("Query rejected for security reasons: " ++ msg)),
       audited P self "query_rejected" sql u s msg w)
  | (true, _) =>
      match run_in_snapshot self sql ctx
              (audited P self "query_execution_start" sql u s "" w) with
      | (Return (results, t), w2) =>
          (Return (mkQueryResult true results (Z.of_nat (length results)) t sql
                     (utcnow_isoformat P (clock w2)) u s None),
           audited P self "query_execution_success" sql u s
             ("Returned " ++ str_int (Z.of_nat (length results)) ++ " rows in "
                ++ format_3f P t ++ "s")
             (clock_read w2))
      | (Raise e, w2) =>
          (Raise (RuntimeError_from ("Query execution failed: " ++ str_exn e) e),
           audited P self "query_execution_error" sql u s
             ("Query execution failed: " ++ str_exn e) w2)
      end
  end.
Proof.
  unfold execute_query. cbv zeta.
  destruct (validate_query sql (_create_security_context self u s)) as [[|] msg];
    cbn [negb].
  - rewrite bind_audit. unfold try_except, bind at 1.
    destruct (run_in_snapshot self sql (_create_security_context self u s)
                (audited P self "query_execution_start" sql u s "" w))
      as [[[results t] | e] w2].
    + unfold utcnow. unfold bind at 1. unfold bind at 1. cbn [tick ret].
      rewrite bind_audit. reflexivity.
    + rewrite bind_audit. reflexivity.
  - rewrite bind_audit. reflexivity.
Qed.

(** The row loop speaks to the database only, by row requests. *)
Lemma fetch_rows_frame (field_names : list string) (cap : Z) :
  forall (rows : row_stream (float P)) (results : list (dict (float P))) (rc : Z)
         (w w' : World) (r : outcome (list (dict (float P)))),
    fetch_rows rows field_names cap results rc w = (r, w') ->
    clock w' = clock w /\ audit_log w' = audit_log w /\
    error_log w' = error_log w /\
    exists n, db_log w' = (db_log w ++ repeat FetchRow n)%list.
Proof.
  induction rows as [| values rest IH | e]; intros results rc w w' r H; simpl in H.
  - inversion H; subst. repeat split. exists 0. symmetry. apply app_nil_r.
  - unfold bind, db_request in H.
    destruct (rc >=? cap)%Z.
    + inversion H; subst. repeat split. exists 1. reflexivity.
    + apply IH in H. cbn [clock audit_log error_log db_log] in H.
      destruct H as [Hc [Ha [He [n Hd]]]]. repeat split; try assumption.
      exists (S n). rewrite Hd, <- app_assoc. reflexivity.
  - unfold bind, db_request in H. inversion H; subst. repeat split.
    exists 1. reflexivity.
Qed.

(** The row loop never stores more rows than the cap leaves room for. *)
Lemma fetch_rows_bound (field_names : list string) (cap : Z) :
  forall (rows : row_stream (float P)) (results : list (dict (float P))) (rc : Z)
         (w w' : World) (out : list (dict (float P))),
    rc = Z.of_nat (length results) ->
    fetch_rows rows field_names cap results rc w = (Return out, w') ->
    (Z.of_nat (length out) <= Z.max (Z.of_nat (length results)) cap)%Z.
Proof.
  induction rows as [| values rest IH | e]; intros results rc w w' out Hrc H;
    simpl in H.
  - inversion H; subst. lia.
  - unfold bind, db_request in H.
    destruct (rc >=? cap)%Z eqn:Hcap.
    + inversion H; subst. lia.
    + rewrite Z.geb_leb in Hcap. apply Z.leb_gt in Hcap.
      apply IH in H.
      * rewrite length_app in H. simpl in H. lia.
      * rewrite length_app. simpl. lia.
  - unfold bind, db_request in H. discriminate H.
Qed.

Ltac run_py H :=
  cbv beta iota zeta delta
    [finally try_except bind time utcnow tick ret raise
     db_request db_requests emit_audit logger_error] in H;
  cbn [clock audit_log error_log db_log fst snd] in H.

Lemma run_in_snapshot_frame (self : SpannerAgent (float P)) (sql : string)
    (ctx : SecurityContext) (w w' : World)
    (r : outcome (list (dict (float P)) * float P)) :
  run_in_snapshot self sql ctx w = (r, w') ->
  audit_log w' = audit_log w /\ error_log w' = error_log w /\
  exists evs, db_log w' = (db_log w ++ evs)%list /\ snapshot_requests sql evs.
Proof.
  unfold run_in_snapshot. intros H. run_py H.
  destruct (database self (length (db_log w)) sql) as [e | e | e | names rows].
  - inversion H; subst. cbn. repeat split.
    exists [OpenSnapshot]. split; [reflexivity | exists 0; left; reflexivity].
  - inversion H; subst. cbn. repeat split.
    exists [OpenSnapshot; ExecuteSql sql; CloseSnapshot].
    split; [rewrite <- !app_assoc; reflexivity | exists 0; right; reflexivity].
  - inversion H; subst. cbn. repeat split.
    exists [OpenSnapshot; ExecuteSql sql; CloseSnapshot].
    split; [rewrite <- !app_assoc; reflexivity | exists 0; right; reflexivity].
  - match type of H with
    | context [fetch_rows ?a ?b ?c ?d ?e ?f] =>
        destruct (fetch_rows a b c d e f) as [fr wf] eqn:Hf
    end.
    apply fetch_rows_frame in Hf.
    cbn [clock audit_log error_log db_log] in Hf.
    destruct Hf as [_ [Ha [He [n Hd]]]].
    assert (Hw : audit_log w' = audit_log wf /\ error_log w' = error_log wf /\
                 db_log w' = (db_log wf ++ [CloseSnapshot])%list).
    { destruct fr as [out | e]; inversion H; subst; cbn; auto. }
    destruct Hw as [Ha' [He' Hd']].
    repeat split; try congruence.
    exists ([OpenSnapshot; ExecuteSql sql] ++ repeat FetchRow n ++ [CloseSnapshot])%list.
    split; [| exists n; right; reflexivity].
    rewrite Hd', Hd. rewrite <- !app_assoc. reflexivity.
Qed.

Lemma run_in_snapshot_bound (self : SpannerAgent (float P)) (sql : string)
    (ctx : SecurityContext) (w w' : World)
    (results : list (dict (float P))) (t : float P) :
  run_in_snapshot self sql ctx w = (Return (results, t), w') ->
  (Z.of_nat (length results) <= Z.max 0 (max_rows ctx))%Z.
Proof.
  unfold run_in_snapshot. intros H. run_py H.
  destruct (database self (length (db_log w)) sql) as [e | e | e | names rows];
    try discriminate H.
  match type of H with
  | context [fetch_rows ?a ?b ?c ?d ?e ?f] =>
      destruct (fetch_rows a b c d e f) as [fr wf] eqn:Hf
  end.
  destruct fr as [out | e]; [| discriminate H].
  inversion H; subst.
  apply fetch_rows_bound in Hf; [exact Hf | reflexivity].
Qed.

Lemma snapshot_requests_sql (sql stmt : string) (evs : list DbEvent) :
  snapshot_requests sql evs -> In (ExecuteSql stmt) evs -> stmt = sql.
Proof.
  intros [n [H | H]] Hin; subst evs.
  - simpl in Hin. destruct Hin as [Hin | []]. discriminate Hin.
  - simpl in Hin. destruct Hin as [Hin | [Hin | Hin]].
    + discriminate Hin.
    + congruence.
    + apply in_app_or in Hin. destruct Hin as [Hin | Hin].
      * apply repeat_spec in Hin. discriminate Hin.
      * simpl in Hin. destruct Hin as [Hin | []]. discriminate Hin.
Qed.


(** C5: when [validate_query] rejects the text, [execute_query] raises the
    [ValueError] carrying the verdict and leaves the database untouched;
    and whatever the verdict, a statement the database is asked to execute
    during the call is the text itself, accepted under the context built
    for the same identity. *)
Theorem rejected_query_never_reaches_database (self : SpannerAgent (float P))
    (sql u s : string) (w w' : World) (r : outcome (QueryResult (float P))) :
  execute_query self sql u s w = (r, w') ->
  (fst (validate_query sql (_create_security_context self u s)) = false ->
   r = Raise (ValueError ("Query rejected for security reasons: "
                ++ snd (validate_query sql (_create_security_context self u s))))
   /\ db_log w' = db_log w) /\
  exists evs,
    db_log w' = (db_log w ++ evs)%list /\
    (evs <> [] ->
     fst (validate_query sql (_create_security_context self u s)) = true) /\
    (forall stmt, In (ExecuteSql stmt) evs -> stmt = sql).
Proof.
  rewrite execute_query_eq. cbv zeta.
  destruct (validate_query sql (_create_security_context self u s)) as [[|] msg];
    cbn [fst snd].
  - destruct (run_in_snapshot self sql (_create_security_context self u s)
                (audited P self "query_execution_start" sql u s "" w))
      as [ro w2] eqn:E.
    apply run_in_snapshot_frame in E. rewrite audited_db_log in E.
    destruct E as [_ [_ [evs [Hd Hev]]]].
    intros H. split; [discriminate |].
    exists evs. repeat split.
    + destruct ro as [[results t] | e]; inversion H; subst;
        rewrite audited_db_log; exact Hd.
    + intros stmt Hin. exact (snapshot_requests_sql sql stmt evs Hev Hin).
  - intros H. inversion H; subst. rewrite audited_db_log.
    split; [intros _; split; reflexivity |].
    exists []. repeat split.
    + symmetry. apply app_nil_r.
    + intros Hne. contradiction Hne. reflexivity.
    + intros stmt [].
Qed.

(** C8 (amended): when the policy engine accepts the text and the work
    inside the snapshot raises [e], [execute_query] raises a [RuntimeError]
    whose message is the marker "Query execution failed: " followed by
    [str(e)] and whose direct cause is [e]; the SQL text is not put in the
    message, it goes to the [query_execution_error] audit line. *)
Theorem execution_failure_is_wrapped (self : SpannerAgent (float P))
    (sql u s : string) (w w2 : World) (e : exn) :
  fst (validate_query sql (_create_security_context self u s)) = true ->
  run_in_snapshot self sql (_create_security_context self u s)
    (audited P self "query_execution_start" sql u s "" w) = (Raise e, w2) ->
  exists raised w',
    execute_query self sql u s w = (Raise raised, w') /\
    exn_class raised = "RuntimeError" /\
    str_exn raised = "Query execution failed: " ++ str_exn e /\
    exn_cause raised = Some e /\
    (enable_audit self = true ->
     audit_log w' =
     (audit_log w2 ++
        [audit_line P self "query_execution_error" sql u s (str_exn raised)
           (clock w2)])%list).
Proof.
  intros Hv Hrun. rewrite execute_query_eq. cbv zeta.
  destruct (validate_query sql (_create_security_context self u s)) as [[|] msg];
    [| discriminate Hv].
  rewrite Hrun. eexists. eexists. split; [reflexivity |].
  repeat split. intros Hau. rewrite audited_audit_log, Hau. reflexivity.
Qed.

(** C10 (amended): with audit logging enabled, a rejected call appends the
    single event [query_rejected]; an accepted call appends two events,
    [query_execution_start] and then [query_execution_success] or
    [query_execution_error]; with audit logging disabled nothing is
    appended.  Every event carries the SQL text and the identity. *)
Theorem audit_events_of_a_call (self : SpannerAgent (float P))
    (sql u s : string) (w w' : World) (r : outcome (QueryResult (float P))) :
  execute_query self sql u s w = (r, w') ->
  exists evs,
    audit_log w' = (audit_log w ++ evs)%list /\
    Forall (fun a => audit_sql a = sql /\ audit_user_id a = u /\
                     audit_session_id a = s) evs /\
    map audit_event_type evs =
      if enable_audit self then
        if fst (validate_query sql (_create_security_context self u s)) then
          match r with
          | Return _ => ["query_execution_start"; "query_execution_success"]
          | Raise _ => ["query_execution_start"; "query_execution_error"]
          end
        else ["query_rejected"]
      else [].
Proof.
  rewrite execute_query_eq. cbv zeta.
  destruct (validate_query sql (_create_security_context self u s)) as [[|] msg];
    cbn [fst].
  - destruct (run_in_snapshot self sql (_create_security_context self u s)
                (audited P self "query_execution_start" sql u s "" w))
      as [ro w2] eqn:E.
    apply run_in_snapshot_frame in E. rewrite audited_audit_log in E.
    destruct E as [Ha _].
    intros H.
    destruct ro as [[results t] | e]; inversion H; subst;
      rewrite audited_audit_log; cbn [clock_read tick snd audit_log];
      rewrite Ha; destruct (enable_audit self);
      eexists; (split; [rewrite <- app_assoc; reflexivity |]);
      (split; [repeat constructor | reflexivity]).
  - intros H. inversion H; subst. rewrite audited_audit_log.
    destruct (enable_audit self); eexists;
      (split; [reflexivity |]); (split; [repeat constructor | reflexivity]).
Qed.

End WithPlatform.


Lemma capped_run_eq :
  execute_query (Sample.agent Sample.three_rows 2 true)
    "SELECT id, name FROM users" "default" "default" initial_world
  = Sample.capped_run.
Proof. vm_compute. reflexivity. Qed.


Lemma rejected_query_never_reaches_database_witness :
  exists r w',
    execute_query (Sample.agent Sample.three_rows 1000 true)
      "DROP TABLE users" "default" "default" initial_world = (r, w') /\
    r = Raise (ValueError
                 ("Query rejected for security reasons: "
                    ++ "Query contains forbidden pattern: "
                    ++ "\b(DELETE|DROP|TRUNCATE|ALTER|CREATE|INSERT|UPDATE|GRANT|REVOKE)\b")) /\
    db_log w' = [].
Proof.
  destruct (execute_query (Sample.agent Sample.three_rows 1000 true)
              "DROP TABLE users" "default" "default" initial_world)
    as [r w'] eqn:E.
  exists r, w'. split; [reflexivity |].
  destruct (rejected_query_never_reaches_database Sample.platform
              (Sample.agent Sample.three_rows 1000 true)
              "DROP TABLE users" "default" "default" initial_world w' r E)
    as [Hrej _].
  apply Hrej. vm_compute. reflexivity.
Defined.

(** C8 (as stated) fails: the message of the wrapped error is the marker
    and the driver's text, and the SQL text is not part of it. *)
Lemma failure_message_omits_sql :
  fst (validate_query "SELECT id, name FROM users"
         (_create_security_context (Sample.agent Sample.unavailable 1000 true)
            "default" "default")) = true /\
  match execute_query (Sample.agent Sample.unavailable 1000 true)
          "SELECT id, name FROM users" "default" "default" initial_world with
  | (Raise e, _) =>
      str_exn e = "Query execution failed: 503 unavailable" /\
      contains "SELECT id, name FROM users" (str_exn e) = false
  | (Return _, _) => False
  end.
Proof. vm_compute. repeat split. Qed.

Lemma execution_failure_is_wrapped_witness :
  exists raised w',
    execute_query (Sample.agent Sample.unavailable 1000 true)
      "SELECT id, name FROM users" "default" "default" initial_world
      = (Raise raised, w') /\
    str_exn raised = "Query execution failed: 503 unavailable" /\
    exn_cause raised = Some (Exn "ServiceUnavailable" "503 unavailable").
Proof.
  destruct (run_in_snapshot (Sample.agent Sample.unavailable 1000 true)
              "SELECT id, name FROM users"
              (_create_security_context (Sample.agent Sample.unavailable 1000 true)
                 "default" "default")
              (audited Sample.platform (Sample.agent Sample.unavailable 1000 true)
                 "query_execution_start" "SELECT id, name FROM users"
                 "default" "default" "" initial_world))
    as [[ok | e] w2] eqn:E; [vm_compute in E; discriminate E |].
  assert (He : e = Exn "ServiceUnavailable" "503 unavailable")
    by (vm_compute in E; congruence).
  destruct (execution_failure_is_wrapped Sample.platform
              (Sample.agent Sample.unavailable 1000 true)
              "SELECT id, name FROM users" "default" "default"
              initial_world w2 e ltac:(vm_compute; reflexivity) E)
    as [raised [w' [Hrun [_ [Hmsg [Hcause _]]]]]].
  exists raised, w'. subst e. repeat split; assumption.
Defined.

(** C10 (as stated) fails: an accepted call leaves two audit events, and a
    call made with audit logging switched off leaves none. *)
Lemma accepted_call_emits_two_events :
  map audit_event_type
    (audit_log (snd (execute_query (Sample.agent Sample.three_rows 1000 true)
                       "SELECT id, name FROM users" "default" "default"
                       initial_world)))
    = ["query_execution_start"; "query_execution_success"] /\
  audit_log (snd (execute_query (Sample.agent Sample.three_rows 1000 false)
                    "DROP TABLE users" "default" "default" initial_world))
    = [].
Proof. split; vm_compute; reflexivity. Qed.

Lemma audit_events_of_a_call_witness :
  exists r w' evs,
    execute_query (Sample.agent Sample.three_rows 1000 true)
      "DROP TABLE users" "default" "default" initial_world = (r, w') /\
    audit_log w' = evs /\ map audit_event_type evs = ["query_rejected"].
Proof.
  destruct (execute_query (Sample.agent Sample.three_rows 1000 true)
              "DROP TABLE users" "default" "default" initial_world)
    as [r w'] eqn:E.
  destruct (audit_events_of_a_call Sample.platform
              (Sample.agent Sample.three_rows 1000 true)
              "DROP TABLE users" "default" "default" initial_world w' r E)
    as [evs [Hlog [_ Hkinds]]].
  exists r, w', evs. repeat split; [exact Hlog | exact Hkinds].
Defined.

End ExecutionFacts.

(* ================================================================== *)
(** * Properties of the derived read-only operations                   *)
(* ================================================================== *)

Module DerivedFacts.
Import Text Runtime SpannerSecurityValidator SpannerAgent Observations ExecutionFacts.
Local Open Scope py_scope.

Section WithPlatform.

Variable P : Platform.

Local Abbreviation F := (float P).
Local Abbreviation value := (Runtime.value (float P)).

Ltac run_goal :=
  cbv beta iota zeta delta
    [finally try_except bind time utcnow tick ret raise
     db_request db_requests emit_audit logger_error];
  cbn [clock audit_log error_log db_log fst snd].

(** [get_schema_info] stops at its first statement. *)
Lemma get_schema_info_eq (self : SpannerAgent F) (w : World) :
  let rejection :=
    "Query rejected for security reasons: Query contains forbidden pattern: "
      ++ "INFORMATION_SCHEMA\.(TABLES|COLUMNS)" in
  let error_msg := "Failed to retrieve schema information: " ++ rejection in
  get_schema_info self w =
  (Raise (RuntimeError_from error_msg (ValueError rejection)),
   audited P self "schema_query_error" "schema_query" "system" "schema_query"
     error_msg
     (logged error_msg
        (audited P self "query_rejected" schema_tables_query "system"
           "schema_query"
           ("Query contains forbidden pattern: "
              ++ "INFORMATION_SCHEMA\.(TABLES|COLUMNS)") w))).
Proof.
  cbv zeta. unfold get_schema_info, try_except, bind at 1.
  rewrite execute_query_eq. cbv zeta.
  rewrite ValidatorFacts.schema_tables_query_rejected.
  unfold bind at 1. unfold logger_error at 1.
  rewrite bind_audit. reflexivity.
Qed.

(** [get_table_statistics] stops at its first statement too, and turns
    the rejection into its error dictionary. *)
Lemma get_table_statistics_eq (self : SpannerAgent F) (table_name : string)
    (w : World) :
  exists pattern,
    In pattern DANGEROUS_PATTERNS /\
    let verdict := "Query contains forbidden pattern: " ++ pattern in
    let error_msg :=
      "Failed to retrieve table statistics for " ++ table_name ++ ": "
        ++ "Query rejected for security reasons: " ++ verdict in
    let w1 :=
      logged error_msg
        (audited P self "query_rejected" (stats_columns_query table_name)
           "system" "table_stats" verdict w) in
    get_table_statistics self table_name w =
    (Return (obj [ ("error", VStr error_msg);
                   ("table_name", VStr table_name);
                   ("timestamp", VStr (utcnow_isoformat P (clock w1))) ]),
     clock_read w1).
Proof.
  destruct (ValidatorFacts.stats_columns_query_rejected table_name
              (_create_security_context self "system" "table_stats"))
    as [pattern [Hin Hv]].
  exists pattern. split; [exact Hin |]. cbv zeta.
  unfold get_table_statistics, try_except, bind at 1.
  rewrite execute_query_eq. cbv zeta. rewrite Hv.
  reflexivity.
Qed.

(** C2: whatever the database and the table name, [get_schema_info] raises
    the wrapped rejection and [get_table_statistics] returns its error
    dictionary, never the nested structure: the columns statement of each
    names INFORMATION_SCHEMA.COLUMNS, the policy engine rejects it, and the
    database is not contacted. *)
Theorem introspection_is_always_rejected (self : SpannerAgent F)
    (table_name : string) (w : World) :
  (exists e w',
     get_schema_info self w = (Raise e, w') /\
     exn_class e = "RuntimeError" /\
     str_exn e =
       "Failed to retrieve schema information: "
         ++ "Query rejected for security reasons: "
         ++ "Query contains forbidden pattern: "
         ++ "INFORMATION_SCHEMA\.(TABLES|COLUMNS)" /\
     db_log w' = db_log w) /\
  (exists pattern now w',
     In pattern DANGEROUS_PATTERNS /\
     get_table_statistics self table_name w =
       (Return (obj [ ("error",
                       VStr ("Failed to retrieve table statistics for "
                               ++ table_name ++ ": "
                               ++ "Query rejected for security reasons: "
                               ++ "Query contains forbidden pattern: "
                               ++ pattern));
                      ("table_name", VStr table_name);
                      ("timestamp", VStr now) ]), w') /\
     db_log w' = db_log w).
Proof.
  split.
  - eexists. eexists. split; [apply get_schema_info_eq |].
    repeat split. rewrite audited_db_log. unfold logged, logger_error.
    cbn [snd db_log]. apply audited_db_log.
  - destruct (get_table_statistics_eq self table_name w) as [pattern [Hin Heq]].
    cbv zeta in Heq.
    exists pattern. eexists. eexists. split; [exact Hin |].
    split; [exact Heq |].
    unfold clock_read, tick, logged, logger_error. cbn [snd db_log].
    apply audited_db_log.
Qed.

(** [get_database_health], by the outcome of the probe: reading
    [isoformat] off the timestamp of a successful probe raises, and the
    handler of the inner [try] takes over in both cases. *)
Lemma get_database_health_eq (self : SpannerAgent F) (w : World) :
  get_database_health self w =
  match execute_query self "SELECT 1 as health_check" "system" "health_check"
          (clock_read (clock_read w)) with
  | (Return _, w1) =>
      (Return (unhealthy_report P self w
                 "'str' object has no attribute 'isoformat'"), w1)
  | (Raise e, w1) => (Return (unhealthy_report P self w (str_exn e)), w1)
  end.
Proof.
  unfold get_database_health, unhealthy_report, str_isoformat. run_goal.
  match goal with
  | |- context [execute_query self _ _ _ ?w0] =>
      change w0 with (clock_read (clock_read w))
  end.
  destruct (execute_query self "SELECT 1 as health_check" "system" "health_check"
              (clock_read (clock_read w))) as [[r | e] w1]; reflexivity.
Qed.

(** The health operation always returns, and never with "healthy". *)
Lemma health_is_never_healthy (self : SpannerAgent F) (w : World) :
  exists v w',
    get_database_health self w = (Return v, w') /\
    field P v "status" = Some (VStr "unhealthy").
Proof.
  rewrite get_database_health_eq.
  destruct (execute_query self "SELECT 1 as health_check" "system" "health_check"
              (clock_read (clock_read w))) as [[r | e] w1];
    eexists; eexists; (split; [reflexivity | reflexivity]).
Qed.

(** C6 (code evaluated where the claim fails): when the probe query
    succeeds, [get_database_health] still returns the status "unhealthy",
    with the connection marked disconnected and the [AttributeError] text as
    the captured error. *)
Theorem health_unhealthy_although_probe_succeeds (self : SpannerAgent F)
    (w w1 : World) (r : QueryResult F) :
  execute_query self "SELECT 1 as health_check" "system" "health_check"
    (clock_read (clock_read w)) = (Return r, w1) ->
  exists v conn,
    get_database_health self w = (Return v, w1) /\
    field P v "status" = Some (VStr "unhealthy") /\
    field P v "connection" = Some conn /\
    field P conn "status" = Some (VStr "disconnected") /\
    field P conn "error" = Some (VStr "'str' object has no attribute 'isoformat'").
Proof.
  intros Hprobe. rewrite get_database_health_eq, Hprobe.
  eexists. eexists. split; [reflexivity |]. repeat split.
Qed.

(** The document [analyze_query_performance] returns for [sql]: the
    findings on the text, stamped with the clock text read in world [w]. *)
Lemma analyze_query_performance_eq (self : SpannerAgent F) (sql : string)
    (w : World) :
  analyze_query_performance self sql w =
  (Return (obj
     [ ("sql", VStr sql);
       ("timestamp", VStr (utcnow_isoformat P (clock w)));
       ("analysis",
        obj [ ("complexity", VStr (rate_complexity (performance_findings sql)));
              ("estimated_cost",
               VStr (rate_cost (rate_complexity (performance_findings sql))));
              ("recommendations",
               VList (map VStr (fst (performance_findings sql)))) ]);
       ("execution_plan", VNone) ]),
   clock_read w).
Proof. reflexivity. Qed.

(** C7 (amended): two calls on the same text, on any agents and in any
    worlds, return documents that agree on everything but the "timestamp"
    entry, which is the clock text read during the call; the documents are
    equal when those texts are; and a call reads the clock once and leaves
    the database, the audit log and the error log as they were. *)
Theorem analysis_is_text_and_clock (self1 self2 : SpannerAgent F)
    (sql : string) (w1 w2 : World) :
  exists v1 v2,
    analyze_query_performance self1 sql w1 = (Return v1, clock_read w1) /\
    analyze_query_performance self2 sql w2 = (Return v2, clock_read w2) /\
    without_timestamp P v1 = without_timestamp P v2 /\
    field P v1 "timestamp" = Some (VStr (utcnow_isoformat P (clock w1))) /\
    (utcnow_isoformat P (clock w1) = utcnow_isoformat P (clock w2) -> v1 = v2) /\
    db_log (clock_read w1) = db_log w1 /\
    audit_log (clock_read w1) = audit_log w1 /\
    error_log (clock_read w1) = error_log w1.
Proof.
  eexists. eexists.
  split; [apply analyze_query_performance_eq |].
  split; [apply analyze_query_performance_eq |].
  split; [reflexivity |]. split; [reflexivity |].
  split; [intros H; rewrite H; reflexivity |].
  repeat split.
Qed.

End WithPlatform.

Lemma probe_run_eq :
  execute_query (Sample.agent Sample.three_rows 1000 true)
    "SELECT 1 as health_check" "system" "health_check"
    (clock_read (clock_read initial_world))
  = Sample.probe_run.
Proof. vm_compute. reflexivity. Qed.

Lemma health_unhealthy_although_probe_succeeds_witness :
  exists r w1 v,
    execute_query (Sample.agent Sample.three_rows 1000 true)
      "SELECT 1 as health_check" "system" "health_check"
      (clock_read (clock_read initial_world)) = (Return r, w1) /\
    success r = true /\
    get_database_health (Sample.agent Sample.three_rows 1000 true) initial_world
      = (Return v, w1) /\
    field Sample.platform v "status" = Some (VStr "unhealthy").
Proof.
  pose proof probe_run_eq as E. unfold Sample.probe_run in E.
  destruct (health_unhealthy_although_probe_succeeds Sample.platform
              (Sample.agent Sample.three_rows 1000 true) initial_world _ _ E)
    as [v [conn [Hrun [Hstatus _]]]].
  eexists. eexists. exists v. split; [exact E |].
  split; [reflexivity |]. split; [exact Hrun | exact Hstatus].
Defined.

(** C7 (as stated) fails: two calls in a row on the same text return
    different documents, the second stamped with a later clock text. *)
Lemma analysis_changes_between_calls :
  let self := Sample.agent Sample.three_rows 1000 true in
  let first := analyze_query_performance self "SELECT * FROM users" initial_world in
  let second := analyze_query_performance self "SELECT * FROM users" (snd first) in
  fst first <> fst second.
Proof. vm_compute. intros H. discriminate H. Qed.

Lemma analysis_is_text_and_clock_witness :
  exists v,
    analyze_query_performance (Sample.agent Sample.three_rows 1000 true)
      "SELECT * FROM users" initial_world = (Return v, clock_read initial_world) /\
    analyze_query_performance (Sample.agent Sample.unavailable 5 false)
      "SELECT * FROM users" initial_world = (Return v, clock_read initial_world).
Proof.
  destruct (analysis_is_text_and_clock Sample.platform
              (Sample.agent Sample.three_rows 1000 true)
              (Sample.agent Sample.unavailable 5 false)
              "SELECT * FROM users" initial_world initial_world)
    as [v1 [v2 [H1 [H2 [_ [_ [Hsame _]]]]]]].
  exists v1. split; [exact H1 |].
  rewrite (Hsame eq_refl). exact H2.
Defined.

End DerivedFacts.

(* ================================================================== *)
(** * Properties of the tool functions                                 *)
(* ================================================================== *)

Module ToolFacts.
Import Runtime Observations.
Local Open Scope py_scope.

Section WithPlatform.

Variable P : Platform.

Local Abbreviation F := (float P).

(** A [try] whose handler always returns lets nothing escape, whatever its
    body does. *)
Lemma try_except_returns {A : Type} (body : M A) (handler : exn -> M A)
    (w : World) :
  (forall e w1, exists v w2, handler e w1 = (Return v, w2)) ->
  exists v w', try_except body handler w = (Return v, w').
Proof.
  intros Hh. unfold try_except.
  destruct (body w) as [[a | e] w1].
  - exists a, w1. reflexivity.
  - apply Hh.
Qed.

(** C9: whatever the methods of the agent object do, raising included,
    each of the five tool functions returns a value (a dictionary, or the
    JSON text of one); when the method it calls raises [e], that value is
    the error dictionary built from [str(e)]. *)
Theorem tools_always_return_a_value (spanner_agent : Methods.t F)
    (sql user_id session_id table_name : string) (w : World) :
  (exists v w',
     run_spanner_query spanner_agent sql user_id session_id w = (Return v, w') /\
     forall e w1,
       Methods.execute_query spanner_agent sql user_id session_id w = (Raise e, w1) ->
       field P v "success" = Some (VBool false) /\
       field P v "error" = Some (VStr (str_exn e))) /\
  (exists v w',
     get_spanner_schema spanner_agent w = (Return (Json v), w') /\
     forall e w1,
       Methods.get_schema_info spanner_agent w = (Raise e, w1) ->
       field P v "error" = Some (VStr ("Failed to retrieve schema: " ++ str_exn e))) /\
  (exists v w',
     get_database_health spanner_agent w = (Return (Json v), w') /\
     forall e w1,
       Methods.get_database_health spanner_agent w = (Raise e, w1) ->
       field P v "error"
         = Some (VStr ("Failed to retrieve health information: " ++ str_exn e))) /\
  (exists v w',
     analyze_query_performance spanner_agent sql w = (Return (Json v), w') /\
     forall e w1,
       Methods.analyze_query_performance spanner_agent sql w = (Raise e, w1) ->
       field P v "error"
         = Some (VStr ("Failed to analyze query performance: " ++ str_exn e))) /\
  (exists v w',
     get_table_statistics spanner_agent table_name w = (Return (Json v), w') /\
     forall e w1,
       Methods.get_table_statistics spanner_agent table_name w = (Raise e, w1) ->
       field P v "error"
         = Some (VStr ("Failed to get table statistics: " ++ str_exn e))).
Proof.
  repeat split.
  - unfold run_spanner_query, try_except, bind at 1.
    destruct (Methods.execute_query spanner_agent sql user_id session_id w)
      as [[r | e] w1]; eexists; eexists; (split; [reflexivity |]);
      intros e' w1' H; inversion H; subst; split; reflexivity.
  - unfold get_spanner_schema, try_except, bind at 1.
    destruct (Methods.get_schema_info spanner_agent w)
      as [[r | e] w1]; eexists; eexists; (split; [reflexivity |]);
      intros e' w1' H; inversion H; subst; reflexivity.
  - unfold get_database_health, try_except, bind at 1.
    destruct (Methods.get_database_health spanner_agent w)
      as [[r | e] w1]; eexists; eexists; (split; [reflexivity |]);
      intros e' w1' H; inversion H; subst; reflexivity.
  - unfold analyze_query_performance, try_except, bind at 1.
    destruct (Methods.analyze_query_performance spanner_agent sql w)
      as [[r | e] w1]; eexists; eexists; (split; [reflexivity |]);
      intros e' w1' H; inversion H; subst; reflexivity.
  - unfold get_table_statistics, try_except, bind at 1.
    destruct (Methods.get_table_statistics spanner_agent table_name w)
      as [[r | e] w1]; eexists; eexists; (split; [reflexivity |]);
      intros e' w1' H; inversion H; subst; reflexivity.
Qed.

End WithPlatform.

Lemma failed_run_eq :
  SpannerAgent.execute_query (Sample.agent Sample.unavailable 1000 true)
    "SELECT id, name FROM users" "default" "default" initial_world
  = Sample.failed_run.
Proof. vm_compute. reflexivity. Qed.

Lemma tools_always_return_a_value_witness :
  exists v w',
    run_spanner_query (Methods.of_agent (Sample.agent Sample.unavailable 1000 true))
      "SELECT id, name FROM users" "default" "default" initial_world
      = (Return v, w') /\
    Observations.field Sample.platform v "success" = Some (VBool false) /\
    Observations.field Sample.platform v "error"
      = Some (VStr "Query execution failed: 503 unavailable").
Proof.
  destruct (tools_always_return_a_value Sample.platform
              (Methods.of_agent (Sample.agent Sample.unavailable 1000 true))
              "SELECT id, name FROM users" "default" "default" "users"
              initial_world)
    as [[v [w' [Hrun Herr]]] _].
  exists v, w'. split; [exact Hrun |].
  pose proof failed_run_eq as E. unfold Sample.failed_run in E.
  exact (Herr _ _ E).
Defined.

End ToolFacts.

(* ================================================================== *)
(** * Facts about texts *)
(* ================================================================== *)

Module TextFacts.
Import Text Notions.

Lemma isspace_not_word (c : ascii) : isspace c = true -> isword c = false.
Proof.
  destruct c as [[] [] [] [] [] [] [] []]; vm_compute; intros H;
    first [reflexivity | discriminate H].
Qed.

Lemma upper_app (a b : string) : upper (a ++ b) = upper a ++ upper b.
Proof. induction a as [| c a IH]; simpl; [reflexivity | rewrite IH; reflexivity]. Qed.

Lemma text_append_assoc (a b c : string) : (a ++ b) ++ c = a ++ b ++ c.
Proof. induction a as [| x a IH]; simpl; [reflexivity | rewrite IH; reflexivity]. Qed.

Lemma append_empty (a : string) : a ++ "" = a.
Proof. induction a as [| x a IH]; simpl; [reflexivity | rewrite IH; reflexivity]. Qed.

(** Stripping on the left stops at the first character that is not a
    blank. *)
Lemma lstrip_app_nonspace (a : string) (c : ascii) (t : string) :
  isspace c = false -> lstrip (a ++ String c t) = lstrip a ++ String c t.
Proof.
  intros Hc. induction a as [| d a IH]; simpl.
  - rewrite Hc. reflexivity.
  - destruct (isspace d); [exact IH | reflexivity].
Qed.

(** Stripping on the right leaves everything up to the last character
    that is not a blank. *)
Lemma rstrip_app_nonspace (s : string) (c : ascii) (t : string) :
  isspace c = false -> rstrip (s ++ String c t) = s ++ String c (rstrip t).
Proof.
  intros Hc. induction s as [| d s IH]; simpl.
  - rewrite Hc. reflexivity.
  - rewrite IH. destruct (isspace d); [| reflexivity].
    destruct s; reflexivity.
Qed.

Lemma rstrip_blanks (ws : string) :
  (forall c, In c (list_ascii_of_string ws) -> isspace c = true) ->
  rstrip ws = "".
Proof.
  induction ws as [| c ws IH]; intros H; simpl; [reflexivity |].
  rewrite (H c (or_introl eq_refl)), IH; [reflexivity |].
  intros d Hd. apply H. right. exact Hd.
Qed.

Lemma lstrip_suffix (s : string) : exists ws, s = ws ++ lstrip s.
Proof.
  induction s as [| c s [ws IH]]; simpl.
  - exists "". reflexivity.
  - destruct (isspace c).
    + exists (String c ws). simpl. rewrite <- IH. reflexivity.
    + exists "". reflexivity.
Qed.

Lemma lstrip_head (s : string) (c : ascii) (t : string) :
  lstrip s = String c t -> isspace c = false.
Proof.
  induction s as [| d s IH]; simpl; [discriminate |].
  destruct (isspace d) eqn:Hd; [exact IH |].
  intros H. inversion H; subst. exact Hd.
Qed.

Lemma rstrip_prefix (s : string) : exists t, s = rstrip s ++ t.
Proof.
  induction s as [| c s [t IH]]; simpl.
  - exists "". reflexivity.
  - destruct (isspace c).
    + destruct (rstrip s) as [| d r] eqn:Hr.
      * exists (String c s). reflexivity.
      * exists t. simpl. simpl in IH. rewrite <- IH. reflexivity.
    + exists t. simpl. rewrite <- IH. reflexivity.
Qed.

Lemma rstrip_head (s : string) (c : ascii) (t : string) :
  rstrip s = String c t -> exists t', s = String c t'.
Proof.
  destruct s as [| d s]; simpl; [discriminate |].
  destruct (isspace d).
  - destruct (rstrip s); [discriminate |].
    intros H. inversion H; subst. eexists. reflexivity.
  - intros H. inversion H; subst. eexists. reflexivity.
Qed.

Lemma startswith_split (p s : string) :
  startswith p s = true -> exists b, s = p ++ b.
Proof.
  revert s. induction p as [| a p IH]; intros s H; simpl in *.
  - exists s. reflexivity.
  - destruct s as [| b s]; [discriminate |].
    apply andb_prop in H. destruct H as [Hab Hp].
    apply Ascii.eqb_eq in Hab. subst b.
    destruct (IH s Hp) as [r Hr]. exists r. rewrite Hr. reflexivity.
Qed.

Lemma startswith_app (p b : string) : startswith p (p ++ b) = true.
Proof.
  induction p as [| a p IH]; simpl; [reflexivity |].
  rewrite Ascii.eqb_refl, IH. reflexivity.
Qed.

Lemma contains_here (p s : string) :
  startswith p s = true -> contains p s = true.
Proof. intros H. destruct s; simpl; rewrite H; reflexivity. Qed.

(** [sub in s] holds exactly when [s] can be cut around a copy of [sub]. *)
Lemma contains_split (p s : string) :
  contains p s = true <-> exists a b, s = a ++ p ++ b.
Proof.
  split.
  - induction s as [| c s IH]; simpl; intros H.
    + rewrite orb_false_r in H. apply startswith_split in H.
      destruct H as [b Hb]. exists "", b. exact Hb.
    + apply orb_prop in H. destruct H as [H | H].
      * apply startswith_split in H. destruct H as [b Hb].
        exists "", b. exact Hb.
      * destruct (IH H) as [a [b Hab]]. exists (String c a), b.
        rewrite Hab. reflexivity.
  - intros [a [b H]]. subst s. induction a as [| c a IH]; simpl.
    + apply contains_here, startswith_app.
    + rewrite IH. apply orb_true_r.
Qed.

Lemma last_char_app (a : string) (c : ascii) (t : string) :
  last_char (a ++ String c t) = last_char (String c t).
Proof.
  induction a as [| d a IH]; [reflexivity |].
  change (last_char (String d (a ++ String c t)) = last_char (String c t)).
  destruct a; simpl in *; exact IH.
Qed.

Lemma upper_char_idempotent (c : ascii) : upper_char (upper_char c) = upper_char c.
Proof. destruct c as [[] [] [] [] [] [] [] []]; vm_compute; reflexivity. Qed.

Lemma upper_idempotent (s : string) : upper (upper s) = upper s.
Proof.
  induction s as [| c s IH]; simpl; [reflexivity |].
  rewrite upper_char_idempotent, IH. reflexivity.
Qed.

Lemma length_upper (s : string) : String.length (upper s) = String.length s.
Proof. induction s as [| c s IH]; simpl; [reflexivity | rewrite IH; reflexivity]. Qed.

Lemma length_app_text (a b : string) :
  String.length (a ++ b) = (String.length a + String.length b)%nat.
Proof. induction a as [| c a IH]; simpl; [reflexivity | rewrite IH; reflexivity]. Qed.

Lemma upper_char_blank (c : ascii) : isspace c = true -> upper_char c = c.
Proof.
  destruct c as [[] [] [] [] [] [] [] []]; vm_compute; intros H;
    first [reflexivity | discriminate H].
Qed.

Lemma upper_blank (ws : string) : all_blank ws = true -> upper ws = ws.
Proof.
  induction ws as [| c ws IH]; simpl; intros H; [reflexivity |].
  apply andb_prop in H. destruct H as [Hc Hws].
  rewrite (upper_char_blank c Hc), (IH Hws). reflexivity.
Qed.

Lemma lstrip_blank (ws : string) : all_blank ws = true -> lstrip ws = "".
Proof.
  induction ws as [| c ws IH]; simpl; intros H; [reflexivity |].
  apply andb_prop in H. destruct H as [Hc Hws]. rewrite Hc. exact (IH Hws).
Qed.

Lemma lstrip_blank_app (ws s : string) :
  all_blank ws = true -> lstrip (ws ++ s) = lstrip s.
Proof.
  induction ws as [| c ws IH]; simpl; intros H; [reflexivity |].
  apply andb_prop in H. destruct H as [Hc Hws]. rewrite Hc. exact (IH Hws).
Qed.

Lemma rstrip_app_blank (s ws : string) :
  all_blank ws = true -> rstrip (s ++ ws) = rstrip s.
Proof.
  intros H. induction s as [| c s IH]; simpl.
  - induction ws as [| d ws IHw]; simpl; [reflexivity |].
    simpl in H. apply andb_prop in H. destruct H as [Hd Hws].
    rewrite Hd, (IHw Hws). reflexivity.
  - rewrite IH. reflexivity.
Qed.

(** Left stripping a text followed by blanks: the stripped text, followed
    by blanks. *)
Lemma lstrip_app_blank (s ws : string) :
  all_blank ws = true ->
  exists ws', all_blank ws' = true /\ lstrip (s ++ ws) = lstrip s ++ ws'.
Proof.
  intros H. induction s as [| c s [ws' [Hb IH]]]; simpl.
  - exists "". split; [reflexivity | apply lstrip_blank; exact H].
  - destruct (isspace c).
    + exists ws'. split; assumption.
    + exists ws. split; [exact H | reflexivity].
Qed.

(** Blanks around a text do not change what stripping leaves. *)
Lemma strip_padding (ws1 s ws2 : string) :
  all_blank ws1 = true -> all_blank ws2 = true ->
  strip (ws1 ++ s ++ ws2) = strip s.
Proof.
  intros H1 H2. unfold strip. rewrite (lstrip_blank_app ws1 _ H1).
  destruct (lstrip_app_blank s ws2 H2) as [ws' [Hb Hl]].
  rewrite Hl. apply rstrip_app_blank. exact Hb.
Qed.

End TextFacts.

(* ================================================================== *)
(** * Further properties of the policy engine *)
(* ================================================================== *)

Module PolicyTheory.
Import Text Re SpannerSecurityValidator Observations Notions TextFacts.

Lemma search_from_here (fl : flags) (r : regex) (prev : option ascii) (s : string) :
  rmatch fl r prev s accept = true -> search_from fl r prev s = true.
Proof. intros H. destruct s; simpl; rewrite H; reflexivity. Qed.

Lemma char_before_step (prev : option ascii) (c : ascii) (pre : string) :
  char_before (Some c) pre = char_before prev (String c pre).
Proof.
  unfold char_before. destruct pre as [| d pre]; [reflexivity |].
  change (last_char (String c (String d pre))) with (last_char (String d pre)).
  assert (H : exists e, last_char (String d pre) = Some e).
  { clear. revert d. induction pre as [| x pre IH]; intros d.
    - exists d. reflexivity.
    - destruct (IH x) as [e He]. exists e. exact He. }
  destruct H as [e He]. rewrite He. reflexivity.
Qed.

(** A match found behind a prefix is found by the scan. *)
Lemma search_from_skip (fl : flags) (r : regex) (x : string) :
  forall (pre : string) (prev : option ascii),
    rmatch fl r (char_before prev pre) x accept = true ->
    search_from fl r prev (pre ++ x) = true.
Proof.
  induction pre as [| c pre IH]; intros prev H.
  - apply search_from_here. exact H.
  - simpl. rewrite (IH (Some c)); [apply orb_true_r |].
    rewrite (char_before_step prev c pre). exact H.
Qed.

(** [.*$] with MULTILINE matches from every position: up to the end of the
    line. *)
Lemma rest_of_line_matches (s : string) (prev : option ascii) :
  rmatch (Flags true true) (RCat (RStar true RAny) REol) prev s accept = true.
Proof.
  simpl. revert prev. induction s as [| c s IH]; intros prev.
  - reflexivity.
  - simpl. destruct (Ascii.eqb c newline) eqn:Hc.
    + simpl. reflexivity.
    + rewrite IH. reflexivity.
Qed.

(** The normalised text around an infix that begins and ends with a
    character that is not a blank. *)
Lemma sql_upper_infix (a : string) (c : ascii) (m : string) (d : ascii) (b : string) :
  isspace c = false -> isspace d = false ->
  strip (a ++ String c (m ++ String d b))
    = lstrip a ++ String c (m ++ String d (rstrip b)).
Proof.
  intros Hc Hd. unfold strip. rewrite (lstrip_app_nonspace a c _ Hc).
  change (lstrip a ++ String c (m ++ String d b))
    with (lstrip a ++ (String c m) ++ String d b).
  rewrite <- text_append_assoc.
  rewrite (rstrip_app_nonspace _ d b Hd).
  rewrite text_append_assoc. reflexivity.
Qed.

(** X5: A text holding [--] anywhere is rejected under every context. *)
Theorem line_comment_always_rejected (sql : string) (ctx : SecurityContext) :
  contains "--" sql = true -> fst (validate_query sql ctx) = false.
Proof.
  intros H. apply contains_split in H. destruct H as [a [b H]]. subst sql.
  apply (ValidatorFacts.denylisted_text_rejected _ "--.*$");
    [simpl; tauto |].
  unfold sql_upper. rewrite upper_app.
  change (upper ("--" ++ b)) with (String "-" ("" ++ String "-" (upper b))).
  rewrite sql_upper_infix by reflexivity.
  unfold search.
  change (compile "--.*$") with
    (Some (RCat (RChar "-") (RCat (RChar "-") (RCat (RStar true RAny) REol)))).
  apply search_from_skip.
  change (rmatch (Flags true true) (RCat (RStar true RAny) REol)
            (Some "-"%char) (rstrip (upper b)) accept = true).
  apply rest_of_line_matches.
Qed.

(** X6: A text naming one of the two schema views, in any letter case, is
    rejected under every context. *)
Theorem schema_views_always_rejected (sql : string) (ctx : SecurityContext) :
  contains "INFORMATION_SCHEMA.TABLES" (upper sql) = true \/
  contains "INFORMATION_SCHEMA.COLUMNS" (upper sql) = true ->
  fst (validate_query sql ctx) = false.
Proof.
  intros H.
  apply (ValidatorFacts.denylisted_text_rejected _
           "INFORMATION_SCHEMA\.(TABLES|COLUMNS)"); [simpl; tauto |].
  unfold sql_upper, search.
  destruct H as [H | H]; apply contains_split in H; destruct H as [a [b H]];
    rewrite H.
  - change ("INFORMATION_SCHEMA.TABLES" ++ b)
      with (String "I" ("NFORMATION_SCHEMA.TABLE" ++ String "S" b)).
    rewrite sql_upper_infix by reflexivity.
    apply search_from_skip. lazy. reflexivity.
  - change ("INFORMATION_SCHEMA.COLUMNS" ++ b)
      with (String "I" ("NFORMATION_SCHEMA.COLUMN" ++ String "S" b)).
    rewrite sql_upper_infix by reflexivity.
    apply search_from_skip. lazy. reflexivity.
Qed.

Lemma line_comment_always_rejected_witness :
  fst (validate_query "SELECT name FROM users -- WHERE active"
         Sample.read_only_context) = false.
Proof.
  apply (line_comment_always_rejected
           "SELECT name FROM users -- WHERE active" Sample.read_only_context).
  vm_compute. reflexivity.
Defined.

Lemma schema_views_always_rejected_witness :
  fst (validate_query "select table_name from Information_Schema.Tables"
         Sample.read_only_context) = false.
Proof.
  apply (schema_views_always_rejected
           "select table_name from Information_Schema.Tables"
           Sample.read_only_context).
  left. vm_compute. reflexivity.
Defined.

Lemma rstrip_upper_blank (ws : string) :
  all_blank ws = true -> rstrip (upper ws) = "".
Proof.
  induction ws as [| c ws IH]; simpl; intros H; [reflexivity |].
  apply andb_prop in H. destruct H as [Hc Hws].
  rewrite (upper_char_blank c Hc), Hc, (IH Hws). reflexivity.
Qed.

(** X7: A text whose last character, trailing blanks aside, is a semicolon is
    rejected under every context. *)
Theorem trailing_semicolon_always_rejected (body ws : string) (ctx : SecurityContext) :
  all_blank ws = true ->
  fst (validate_query (body ++ ";" ++ ws) ctx) = false.
Proof.
  intros Hws.
  apply (ValidatorFacts.denylisted_text_rejected _ ";\s*$"); [simpl; tauto |].
  unfold sql_upper, strip, search. rewrite upper_app.
  change (upper (";" ++ ws)) with (String ";" (upper ws)).
  rewrite (lstrip_app_nonspace (upper body) ";" _ eq_refl).
  rewrite (rstrip_app_nonspace _ ";" _ eq_refl).
  rewrite (rstrip_upper_blank ws Hws).
  apply search_from_skip. vm_compute. reflexivity.
Qed.

Lemma trailing_semicolon_always_rejected_witness :
  fst (validate_query ("SELECT 1" ++ ";" ++ "  ") Sample.read_only_context)
    = false.
Proof.
  apply (trailing_semicolon_always_rejected "SELECT 1" "  "
           Sample.read_only_context).
  vm_compute. reflexivity.
Defined.

Lemma last_char_lstrip (s : string) :
  last_char (lstrip s) = None \/ last_char (lstrip s) = last_char s.
Proof.
  destruct (lstrip s) as [| c t] eqn:E; [left; reflexivity |].
  right. destruct (lstrip_suffix s) as [ws Hws]. rewrite E in Hws.
  rewrite Hws. symmetry. apply last_char_app.
Qed.

Lemma word_before_lstrip (pre : string) :
  word_before (last_char pre) = false ->
  word_before (char_before None (lstrip pre)) = false.
Proof.
  intros H. unfold char_before.
  destruct (last_char_lstrip pre) as [E | E]; rewrite E; [reflexivity |].
  destruct (last_char pre); [exact H | reflexivity].
Qed.

Lemma word_after_rstrip (post : string) :
  word_after post = false -> word_after (rstrip post) = false.
Proof.
  intros H. destruct (rstrip post) as [| c t] eqn:E; [reflexivity |].
  apply rstrip_head in E. destruct E as [t' E]. subst post. exact H.
Qed.

(** The first denylist pattern at a keyword that stands as a whole word. *)
Lemma keyword_matches (kw : string) (p : option ascii) (q : string) :
  In kw mutation_keywords ->
  word_before p = false -> word_after q = false ->
  rmatch (Flags true true)
    (RCat RWordB
       (RCat (RGroup
          (RAlt (literal "DELET" (RChar "E"))
          (RAlt (literal "DRO" (RChar "P"))
          (RAlt (literal "TRUNCAT" (RChar "E"))
          (RAlt (literal "ALTE" (RChar "R"))
          (RAlt (literal "CREAT" (RChar "E"))
          (RAlt (literal "INSER" (RChar "T"))
          (RAlt (literal "UPDAT" (RChar "E"))
          (RAlt (literal "GRAN" (RChar "T"))
                (literal "REVOK" (RChar "E")))))))))))
          RWordB))
    p (kw ++ q) accept = true.
Proof.
  intros Hin Hp Hq.
  simpl in Hin.
  repeat (destruct Hin as [Hin | Hin]; [subst kw |]); [.. | contradiction];
    cbn -[word_before word_after]; rewrite Hp; cbn -[word_after];
    rewrite Hq; reflexivity.
Qed.

Lemma keyword_ends (kw : string) :
  In kw mutation_keywords ->
  exists c m d,
    kw = String c (m ++ String d "") /\ isspace c = false /\ isspace d = false.
Proof.
  intros Hin. simpl in Hin.
  destruct Hin as [H | [H | [H | [H | [H | [H | [H | [H | [H | []]]]]]]]]];
    subst kw.
  - exists "D"%char, "ELET", "E"%char. repeat split.
  - exists "D"%char, "RO", "P"%char. repeat split.
  - exists "T"%char, "RUNCAT", "E"%char. repeat split.
  - exists "A"%char, "LTE", "R"%char. repeat split.
  - exists "C"%char, "REAT", "E"%char. repeat split.
  - exists "I"%char, "NSER", "T"%char. repeat split.
  - exists "U"%char, "PDAT", "E"%char. repeat split.
  - exists "G"%char, "RAN", "T"%char. repeat split.
  - exists "R"%char, "EVOK", "E"%char. repeat split.
Qed.

(** X8: A text in which one of the nine statement keywords stands as a whole
    word, in any letter case, is rejected under every context.  Stated for
    the texts whose upper-cased form [upper] gives exactly. *)
Theorem mutation_keyword_always_rejected (sql kw pre post : string)
    (ctx : SecurityContext) :
  upper_closed sql = true ->
  In kw mutation_keywords ->
  upper sql = pre ++ kw ++ post ->
  word_before (last_char pre) = false ->
  word_after post = false ->
  fst (validate_query sql ctx) = false.
Proof.
  intros _ Hin Hup Hpre Hpost.
  apply (ValidatorFacts.denylisted_text_rejected _
           "\b(DELETE|DROP|TRUNCATE|ALTER|CREATE|INSERT|UPDATE|GRANT|REVOKE)\b");
    [simpl; tauto |].
  unfold sql_upper, search. rewrite Hup.
  destruct (keyword_ends kw Hin) as [c [m [d [Hkw [Hc Hd]]]]].
  assert (Hcut : forall t, kw ++ t = String c (m ++ String d t)).
  { intros t. rewrite Hkw. simpl. rewrite text_append_assoc. reflexivity. }
  rewrite (Hcut post), (sql_upper_infix pre c m d post Hc Hd), <- (Hcut (rstrip post)).
  match goal with
  | |- match ?x with Some _ => _ | None => _ end = true =>
      let y := eval vm_compute in x in change x with y
  end.
  apply search_from_skip.
  apply keyword_matches;
    [exact Hin | apply word_before_lstrip; exact Hpre
     | apply word_after_rstrip; exact Hpost].
Qed.

Lemma mutation_keyword_always_rejected_witness :
  fst (validate_query "select 1 from t where x = (drop table users)"
         Sample.read_write_context) = false.
Proof.
  apply (mutation_keyword_always_rejected
           "select 1 from t where x = (drop table users)" "DROP"
           "SELECT 1 FROM T WHERE X = (" " TABLE USERS)"
           Sample.read_write_context).
  - reflexivity.
  - simpl. tauto.
  - reflexivity.
  - reflexivity.
  - reflexivity.
Defined.

(** What a run of blanks in front of a continuation has matched. *)
Lemma star_blank_inv (fl : flags) (g : bool) (k : option ascii -> string -> bool) :
  forall (s : string) (prev : option ascii),
    rmatch fl (RStar g RSpace) prev s k = true ->
    exists ws rest prev',
      s = ws ++ rest /\ all_blank ws = true /\ k prev' rest = true.
Proof.
  intros s. simpl. generalize (String.length s) as n. intros n. revert s.
  induction n as [| n IH]; intros s prev H.
  - exists "", s, prev. repeat split. exact H.
  - assert (Hstep :
      forall x s', isspace x = true ->
        (fix loop (n : nat) (prev : option ascii) (s : string) {struct n} : bool :=
           match n with
           | O => k prev s
           | S n' =>
               if g then rmatch fl RSpace prev s (loop n') || k prev s
               else k prev s || rmatch fl RSpace prev s (loop n')
           end) n (Some x) s' = true ->
        exists ws rest prev',
          String x s' = ws ++ rest /\ all_blank ws = true /\ k prev' rest = true).
    { intros x s' Hx Hmore.
      destruct (IH s' (Some x) Hmore) as [ws [rest [prev' [Hs [Hb Hk]]]]].
      exists (String x ws), rest, prev'. subst s'. simpl. rewrite Hx, Hb.
      repeat split. exact Hk. }
    assert (Hstop : k prev s = true ->
              exists ws rest prev',
                s = ws ++ rest /\ all_blank ws = true /\ k prev' rest = true).
    { intros Hk. exists "", s, prev. repeat split. exact Hk. }
    destruct g; apply orb_prop in H; destruct H as [H | H];
      try (apply Hstop; exact H);
      (destruct s as [| x s']; [discriminate H |]);
      simpl in H; (destruct (isspace x) eqn:Hx; [| discriminate H]);
      apply (Hstep x s' Hx); exact H.
Qed.

(** What a sequence of literal characters has matched, case mattering. *)
Lemma literal_inv (r : regex) (k : option ascii -> string -> bool) :
  forall (text s : string) (prev : option ascii),
    rmatch no_flags (literal text r) prev s k = true ->
    exists rest,
      s = text ++ rest /\ rmatch no_flags r (char_before prev text) rest k = true.
Proof.
  induction text as [| c t IH]; intros s prev H.
  - exists s. split; [reflexivity | exact H].
  - simpl in H. destruct s as [| x s']; [discriminate |].
    unfold char_matches in H. simpl in H.
    destruct (Ascii.eqb c x) eqn:Hcx; [| discriminate].
    apply Ascii.eqb_eq in Hcx. subst x.
    destruct (IH s' (Some c) H) as [rest [Hs Hr]].
    exists rest. subst s'. split; [reflexivity |].
    rewrite <- (char_before_step prev c t). exact Hr.
Qed.

(** A text of the shape [^\s*KEYWORD\s+] is blanks, the keyword, a blank,
    and the rest. *)
Lemma leading_keyword_inv (kw text : string) :
  rmatch no_flags (leading_keyword_shape kw) None text accept = true ->
  exists ws c rest,
    text = ws ++ kw ++ String c rest /\ all_blank ws = true /\ isspace c = true.
Proof.
  unfold leading_keyword_shape. intros H.
  change (rmatch no_flags (RStar true RSpace) None text
            (fun p s =>
               rmatch no_flags
                 (literal kw (RCat RSpace (RStar true RSpace))) p s accept)
          = true) in H.
  apply star_blank_inv in H. destruct H as [ws [rest0 [prev' [Ht [Hb Hk]]]]].
  apply literal_inv in Hk. destruct Hk as [rest1 [Hr0 Hr1]].
  destruct rest1 as [| c rest]; [discriminate Hr1 |].
  assert (Hc : isspace c = true).
  { simpl in Hr1. destruct (isspace c); [reflexivity | discriminate Hr1]. }
  exists ws, c, rest. subst. repeat split; assumption.
Qed.

Lemma allowed_patterns_compile :
  map compile ALLOWED_PATTERNS
    = map (fun kw => Some (leading_keyword_shape kw)) read_keywords.
Proof. vm_compute. reflexivity. Qed.

(** The leading keyword of a text whose normalised form is blanks, a
    keyword, a blank and more. *)
Lemma leading_keyword_of_normalised (sql kw ws : string) (c : ascii) (rest : string) :
  sql_upper sql = ws ++ kw ++ String c rest ->
  all_blank ws = true ->
  (forall r, word_prefix (kw ++ String c r) = kw) ->
  spec_leading_keyword sql = kw.
Proof.
  unfold sql_upper, strip, spec_leading_keyword. intros Ht Hb Hw.
  destruct ws as [| w ws].
  - destruct (rstrip_prefix (lstrip (upper sql))) as [t Hx].
    rewrite Ht in Hx. simpl in Hx. rewrite text_append_assoc in Hx. simpl in Hx.
    rewrite Hx. apply Hw.
  - exfalso. simpl in Ht, Hb. apply andb_prop in Hb. destruct Hb as [Hwb _].
    apply rstrip_head in Ht. destruct Ht as [t' Ht].
    apply lstrip_head in Ht. congruence.
Qed.

(** A text of one of the allowed shapes has one of the four keywords as
    its leading keyword. *)
Lemma allowed_shape_keyword (sql : string) :
  allowed_shape (sql_upper sql) = true ->
  In (spec_leading_keyword sql) read_keywords.
Proof.
  intros Ha. unfold allowed_shape in Ha.
  apply existsb_exists in Ha. destruct Ha as [p [Hin Hm]].
  unfold match_ in Hm.
  assert (Hkw : exists kw, In kw read_keywords /\
                  compile p = Some (leading_keyword_shape kw)).
  { simpl in Hin.
    destruct Hin as [Hp | [Hp | [Hp | [Hp | []]]]]; subst p.
    - exists "SELECT". split; [simpl; tauto | vm_compute; reflexivity].
    - exists "WITH". split; [simpl; tauto | vm_compute; reflexivity].
    - exists "SHOW". split; [simpl; tauto | vm_compute; reflexivity].
    - exists "DESCRIBE". split; [simpl; tauto | vm_compute; reflexivity]. }
  destruct Hkw as [kw [Hkin Hc]]. rewrite Hc in Hm.
  apply leading_keyword_inv in Hm.
  destruct Hm as [ws [c [rest [Ht [Hb Hsp]]]]].
  assert (Hcw : isword c = false) by (apply isspace_not_word; exact Hsp).
  rewrite (leading_keyword_of_normalised sql kw ws c rest Ht Hb); [exact Hkin |].
  intros r. simpl in Hkin.
  destruct Hkin as [Hk | [Hk | [Hk | [Hk | []]]]]; subst kw;
    simpl; rewrite Hcw; reflexivity.
Qed.

(** X2: Under a read-only context an accepted text has one of the four
    keywords SELECT, WITH, SHOW, DESCRIBE as its leading keyword.  Stated
    for the texts whose upper-cased form [upper] gives exactly. *)
Theorem read_only_admits_four_keywords (sql : string) (ctx : SecurityContext) :
  upper_closed sql = true ->
  read_only ctx = true ->
  fst (validate_query sql ctx) = true ->
  In (spec_leading_keyword sql) read_keywords.
Proof.
  intros _ Hro H. unfold validate_query in H.
  destruct (dangerous_pattern (sql_upper sql)); [discriminate H |].
  rewrite Hro in H.
  destruct (allowed_shape (sql_upper sql)) eqn:Ha; [| discriminate H].
  apply allowed_shape_keyword. exact Ha.
Qed.

Lemma read_only_admits_four_keywords_witness :
  In (spec_leading_keyword "  with t as (select 1) select * from t") read_keywords.
Proof.
  apply (read_only_admits_four_keywords
           "  with t as (select 1) select * from t" Sample.read_only_context);
    vm_compute; reflexivity.
Defined.

(** X1: The message tells the verdict: it is empty exactly when the text is
    accepted, and otherwise it is one of the four rejection texts, the
    first of them naming a pattern of the denylist. *)
Theorem verdict_and_message_agree (sql : string) (ctx : SecurityContext) :
  is_verdict_text (snd (validate_query sql ctx)) /\
  (fst (validate_query sql ctx) = true <-> snd (validate_query sql ctx) = "").
Proof.
  unfold validate_query, is_verdict_text.
  destruct (dangerous_pattern (sql_upper sql)) as [p |] eqn:Hd.
  - apply find_some in Hd. destruct Hd as [Hin _]. cbn [fst snd]. split.
    + right. left. exists p. split; [exact Hin | reflexivity].
    + split; intros H; discriminate H.
  - destruct (read_only ctx && negb (allowed_shape (sql_upper sql)));
      [| destruct (Nat.ltb 3 (count "SELECT" (sql_upper sql)));
         [| destruct (10000 <? Z.of_nat (String.length sql))%Z]];
      cbn [fst snd]; (split; [tauto | split; intros H; try discriminate H; reflexivity]).
Qed.

(** X3: Read-only mode only adds a check: what a read-only context accepts,
    every context accepts, whatever its identity, caps and allowed
    operations. *)
Theorem read_only_is_only_stricter (sql : string) (strict other : SecurityContext) :
  read_only strict = true ->
  fst (validate_query sql strict) = true ->
  validate_query sql other = (true, "").
Proof.
  unfold validate_query. intros Hro.
  destruct (dangerous_pattern (sql_upper sql)); [intros H; discriminate H |].
  rewrite Hro.
  destruct (allowed_shape (sql_upper sql)); cbn [negb andb];
    [| intros H; discriminate H].
  rewrite andb_false_r.
  destruct (Nat.ltb 3 (count "SELECT" (sql_upper sql)));
    [intros H; discriminate H |].
  destruct (10000 <? Z.of_nat (String.length sql))%Z;
    [intros H; discriminate H | reflexivity].
Qed.

Lemma read_only_is_only_stricter_witness :
  validate_query "SELECT id, name FROM users LIMIT 5"
    (new_SecurityContext "ann" "s-1" false 5 1 (Some [MONITORING]))
    = (true, "").
Proof.
  apply (read_only_is_only_stricter
           "SELECT id, name FROM users LIMIT 5" Sample.read_only_context);
    vm_compute; reflexivity.
Defined.

(** X4: An accepted text is at most 10,000 characters long, its normalised
    form holds SELECT at most 3 times, and no denylist pattern is found in
    it.  Stated for the texts whose upper-cased form [upper] gives
    exactly. *)
Theorem accepted_text_is_bounded (sql : string) (ctx : SecurityContext) :
  upper_closed sql = true ->
  fst (validate_query sql ctx) = true ->
  (Z.of_nat (String.length sql) <= 10000)%Z /\
  (count "SELECT" (sql_upper sql) <= 3)%nat /\
  dangerous_pattern (sql_upper sql) = None.
Proof.
  intros _. unfold validate_query.
  destruct (dangerous_pattern (sql_upper sql)); [intros H; discriminate H |].
  destruct (read_only ctx && negb (allowed_shape (sql_upper sql)));
    [intros H; discriminate H |].
  destruct (Nat.ltb_spec 3 (count "SELECT" (sql_upper sql))) as [Hc | Hc];
    [intros H; discriminate H |].
  destruct (Z.ltb_spec 10000 (Z.of_nat (String.length sql))) as [Hl | Hl];
    [intros H; discriminate H |].
  intros _. repeat split; lia.
Qed.

Lemma accepted_text_is_bounded_witness :
  (count "SELECT" (sql_upper "select (select 1), (select 2) from t") <= 3)%nat.
Proof.
  apply (accepted_text_is_bounded
           "select (select 1), (select 2) from t" Sample.read_only_context).
  - reflexivity.
  - vm_compute. reflexivity.
Defined.

(** The classes beyond ASCII at work: a no-break space in front of the
    keyword is stripped, one behind a semicolon is stripped as well, and an
    accented letter in front of a keyword joins it into one word. *)
Example no_break_space_before_keyword :
  validate_query (String (ascii_of_nat 160) "SELECT 1") Sample.read_only_context
    = (true, "").
Proof. vm_compute. reflexivity. Qed.

Example no_break_space_after_semicolon :
  validate_query ("SELECT 1;" ++ String (ascii_of_nat 160) "")
    Sample.read_only_context
    = (false, "Query contains forbidden pattern: ;\s*$").
Proof. vm_compute. reflexivity. Qed.

Example accented_letter_joins_keyword :
  validate_query (String (ascii_of_nat 233) "DROP TABLE users")
    Sample.read_write_context
    = (true, "") /\
  validate_query ("SELECT 1 FROM t WHERE x = "
                    ++ String (ascii_of_nat 233) "DROP")
    Sample.read_only_context
    = (true, "").
Proof. vm_compute. split; reflexivity. Qed.

(** X9: The verdict does not depend on letter case: two texts with the same
    upper-cased form get the same verdict and message. *)
Theorem verdict_ignores_letter_case (sql1 sql2 : string) (ctx : SecurityContext) :
  upper sql1 = upper sql2 ->
  validate_query sql1 ctx = validate_query sql2 ctx.
Proof.
  intros H. unfold validate_query, sql_upper. rewrite H.
  rewrite <- (length_upper sql1), H, (length_upper sql2). reflexivity.
Qed.

Lemma verdict_ignores_letter_case_witness :
  validate_query "Select Id From Users" Sample.read_only_context
    = validate_query "SELECT ID FROM USERS" Sample.read_only_context.
Proof.
  apply (verdict_ignores_letter_case "Select Id From Users" "SELECT ID FROM USERS").
  reflexivity.
Defined.

(** X10: Blanks in front of a text and behind it do not change the verdict, as
    long as the padded text stays within 10,000 characters. *)
Theorem verdict_ignores_surrounding_blanks (ws1 sql ws2 : string)
    (ctx : SecurityContext) :
  all_blank ws1 = true -> all_blank ws2 = true ->
  (Z.of_nat (String.length (ws1 ++ sql ++ ws2)) <= 10000)%Z ->
  validate_query (ws1 ++ sql ++ ws2) ctx = validate_query sql ctx.
Proof.
  intros H1 H2 Hlen. unfold validate_query, sql_upper.
  rewrite !upper_app, (upper_blank ws1 H1), (upper_blank ws2 H2).
  rewrite (strip_padding ws1 (upper sql) ws2 H1 H2).
  rewrite !length_app_text in Hlen.
  destruct (Z.ltb_spec 10000
              (Z.of_nat (String.length (ws1 ++ sql ++ ws2)))) as [Hbad | _].
  - rewrite !length_app_text in Hbad. lia.
  - destruct (Z.ltb_spec 10000 (Z.of_nat (String.length sql))) as [Hbad | _];
      [lia | reflexivity].
Qed.

Lemma verdict_ignores_surrounding_blanks_witness :
  validate_query ("  " ++ "SELECT 1 FROM t" ++ " ") Sample.read_only_context
    = validate_query "SELECT 1 FROM t" Sample.read_only_context.
Proof.
  apply (verdict_ignores_surrounding_blanks "  " "SELECT 1 FROM t" " ");
    vm_compute; first [reflexivity | discriminate].
Defined.

End PolicyTheory.

(* ================================================================== *)
(** * Further properties of the execution wrapper *)
(* ================================================================== *)

Module ExecutionTheory.
Import Text Runtime SpannerSecurityValidator SpannerAgent Observations Notions
  ExecutionFacts.
Local Open Scope py_scope.

Ltac run_hyp H :=
  cbv beta iota zeta delta
    [finally try_except bind time utcnow tick ret raise
     db_request db_requests emit_audit logger_error] in H;
  cbn [clock audit_log error_log db_log fst snd] in H.

Section WithPlatform.

Variable P : Platform.

Local Abbreviation F := (float P).
Local Abbreviation value := (Runtime.value (float P)).

(** The row loop asks for at most one row more than the cap leaves room
    for. *)
Lemma fetch_rows_requests (names : list string) (cap : Z) :
  forall (rows : row_stream F) (results : list (dict F)) (rc : Z)
         (w w' : World) (r : outcome (list (dict F))),
    fetch_rows (P:=P) rows names cap results rc w = (r, w') ->
    exists n,
      db_log w' = (db_log w ++ repeat FetchRow n)%list /\
      (Z.of_nat n <= Z.max 0 (cap - rc) + 1)%Z.
Proof.
  induction rows as [| values rest IH | e]; intros results rc w w' r H;
    simpl in H; run_hyp H.
  - inversion H; subst. exists 0%nat. split; [symmetry; apply app_nil_r | lia].
  - destruct (rc >=? cap)%Z eqn:Hcap.
    + inversion H; subst. exists 1%nat. split; [reflexivity | lia].
    + rewrite Z.geb_leb in Hcap. apply Z.leb_gt in Hcap.
      apply IH in H. cbn [db_log] in H. destruct H as [n [Hd Hn]].
      exists (S n). split; [rewrite Hd, <- app_assoc; reflexivity | lia].
  - inversion H; subst. exists 1%nat. split; [reflexivity | lia].
Qed.

(** On a result set that streams its rows without failing, the row loop
    returns the rows it was given followed by the first rows of the
    stream, as many as the cap leaves room for. *)
Lemma fetch_rows_clean (names : list string) (cap : Z) :
  forall (rows : list (list value)) (results : list (dict F)) (rc : Z) (w : World),
    rc = Z.of_nat (length results) ->
    exists w',
      fetch_rows (P:=P) (stream_of rows) names cap results rc w =
      (Return (results ++
                 map (dict_zip (P:=P) names) (firstn (Z.to_nat (cap - rc)) rows))%list,
       w') /\
      audit_log w' = audit_log w /\ clock w' = clock w.
Proof.
  induction rows as [| row rest IH]; intros results rc w Hrc; simpl.
  - exists w. rewrite firstn_nil. simpl. rewrite app_nil_r. repeat split.
  - cbv beta iota zeta delta [bind db_request ret].
    destruct (rc >=? cap)%Z eqn:Hcap.
    + rewrite Z.geb_leb in Hcap. apply Z.leb_le in Hcap.
      replace (Z.to_nat (cap - rc)) with 0%nat by lia.
      simpl. rewrite app_nil_r. eexists. repeat split.
    + rewrite Z.geb_leb in Hcap. apply Z.leb_gt in Hcap.
      replace (Z.to_nat (cap - rc)) with (S (Z.to_nat (cap - (rc + 1)))) by lia.
      cbn [firstn map].
      destruct (IH (results ++ [dict_zip (P:=P) names row])%list (rc + 1)%Z
                  (mkWorld (clock w) (audit_log w) (error_log w)
                     (db_log w ++ [FetchRow])))
        as [w' [Hrun [Ha Hc]]].
      { rewrite length_app. simpl. lia. }
      exists w'. rewrite Hrun, <- app_assoc. repeat split; assumption.
Qed.

Lemma run_in_snapshot_requests (self : SpannerAgent F) (sql : string)
    (ctx : SecurityContext) (w w' : World) (r : outcome (list (dict F) * F)) :
  run_in_snapshot self sql ctx w = (r, w') ->
  exists n evs,
    db_log w' = (db_log w ++ evs)%list /\
    (evs = [OpenSnapshot] \/
     evs = ([OpenSnapshot; ExecuteSql sql] ++ repeat FetchRow n
              ++ [CloseSnapshot])%list) /\
    (Z.of_nat n <= Z.max 0 (max_rows ctx) + 1)%Z.
Proof.
  unfold run_in_snapshot. intros H. run_hyp H.
  destruct (database self (length (db_log w)) sql) as [e | e | e | names rows].
  - inversion H; subst. cbn. exists 0%nat, [OpenSnapshot].
    repeat split; [left; reflexivity | lia].
  - inversion H; subst. cbn. exists 0%nat, [OpenSnapshot; ExecuteSql sql; CloseSnapshot].
    repeat split; [rewrite <- !app_assoc; reflexivity | right; reflexivity | lia].
  - inversion H; subst. cbn. exists 0%nat, [OpenSnapshot; ExecuteSql sql; CloseSnapshot].
    repeat split; [rewrite <- !app_assoc; reflexivity | right; reflexivity | lia].
  - match type of H with
    | context [fetch_rows ?a ?b ?c ?d ?e ?f] =>
        destruct (fetch_rows a b c d e f) as [fr wf] eqn:Hf
    end.
    apply fetch_rows_requests in Hf. cbn [db_log] in Hf.
    destruct Hf as [n [Hd Hn]].
    assert (Hw : db_log w' = (db_log wf ++ [CloseSnapshot])%list).
    { destruct fr as [out | e]; inversion H; subst; reflexivity. }
    exists n, ([OpenSnapshot; ExecuteSql sql] ++ repeat FetchRow n
                 ++ [CloseSnapshot])%list.
    repeat split; [| right; reflexivity | lia].
    rewrite Hw, Hd. rewrite <- !app_assoc. reflexivity.
Qed.

(** X11: A call asks nothing of the database, or a snapshot that fails to open,
    or one snapshot that it opens and closes again, whatever happens in
    between, and in which it executes the text and requests at most one
    row more than the cap. *)
Theorem database_requests_of_a_call (self : SpannerAgent F)
    (sql u s : string) (w w' : World) (r : outcome (QueryResult F)) :
  execute_query self sql u s w = (r, w') ->
  exists n evs,
    db_log w' = (db_log w ++ evs)%list /\
    call_requests sql n evs /\
    (Z.of_nat n <= Z.max 0 (self_max_rows self) + 1)%Z.
Proof.
  rewrite execute_query_eq. cbv zeta.
  destruct (validate_query sql (_create_security_context self u s)) as [[|] msg].
  - destruct (run_in_snapshot self sql (_create_security_context self u s)
                (audited P self "query_execution_start" sql u s "" w))
      as [ro w2] eqn:E.
    apply run_in_snapshot_requests in E. rewrite audited_db_log in E.
    destruct E as [n [evs [Hd [Hev Hn]]]].
    intros H. exists n, evs. split; [| split; [| exact Hn]].
    + destruct ro as [[results t] | e]; inversion H; subst;
        rewrite audited_db_log; exact Hd.
    + unfold call_requests. tauto.
  - intros H. inversion H; subst. rewrite audited_db_log.
    exists 0%nat, []. split; [symmetry; apply app_nil_r |].
    split; [left; reflexivity | lia].
Qed.

(** X12: When the text is accepted and the database answers with rows that
    stream without failing, the call returns the first [max_rows] of them
    in order, each turned into a dictionary by column name, and echoes the
    text and the identity. *)
Theorem clean_result_set_is_truncated (self : SpannerAgent F)
    (sql u s : string) (w : World) (names : list string)
    (rows : list (list value)) :
  fst (validate_query sql (_create_security_context self u s)) = true ->
  database self (length (db_log w)) sql = ResultSet names (stream_of rows) ->
  exists r w',
    execute_query self sql u s w = (Return r, w') /\
    data r = map (dict_zip (P:=P) names) (firstn (Z.to_nat (self_max_rows self)) rows) /\
    row_count r
      = Z.of_nat (Nat.min (Z.to_nat (self_max_rows self)) (length rows)) /\
    SpannerAgent.sql r = sql /\ user_id r = u /\ session_id r = s /\
    error r = None /\ success r = true.
Proof.
  intros Hv Hdb. rewrite execute_query_eq. cbv zeta.
  destruct (validate_query sql (_create_security_context self u s)) as [[|] msg];
    [| discriminate Hv].
  unfold run_in_snapshot.
  cbv beta iota zeta delta
    [finally bind time tick ret raise db_request db_requests].
  cbn [clock audit_log error_log db_log fst snd].
  rewrite audited_db_log, Hdb.
  match goal with
  | |- context [fetch_rows (stream_of rows) names ?c ?res ?rc ?w0] =>
      destruct (fetch_rows_clean names c rows res rc w0 eq_refl)
        as [w1 [Hrun _]]
  end.
  rewrite Hrun. cbn [app]. rewrite Z.sub_0_r.
  eexists. eexists. split; [reflexivity |].
  cbn [data row_count SpannerAgent.sql user_id session_id error success
       max_rows _create_security_context new_SecurityContext].
  repeat split. rewrite length_map, length_firstn. reflexivity.
Qed.

(** X13: A call that raises raises one of two exceptions: the [ValueError] of a
    rejection, with no cause, exactly when the policy engine rejects the
    text; otherwise the [RuntimeError] of a failed execution, raised from
    the error it wraps. *)
Theorem execute_query_raises_two_kinds (self : SpannerAgent F)
    (sql u s : string) (w w' : World) (e : exn) :
  execute_query self sql u s w = (Raise e, w') ->
  (fst (validate_query sql (_create_security_context self u s)) = false /\
   exn_class e = "ValueError" /\ exn_cause e = None /\
   str_exn e = "Query rejected for security reasons: "
                 ++ snd (validate_query sql (_create_security_context self u s)))
  \/
  (fst (validate_query sql (_create_security_context self u s)) = true /\
   exn_class e = "RuntimeError" /\
   exists cause,
     exn_cause e = Some cause /\
     str_exn e = "Query execution failed: " ++ str_exn cause).
Proof.
  rewrite execute_query_eq. cbv zeta.
  destruct (validate_query sql (_create_security_context self u s)) as [[|] msg];
    cbn [fst snd].
  - destruct (run_in_snapshot self sql (_create_security_context self u s)
                (audited P self "query_execution_start" sql u s "" w))
      as [[[results t] | cause] w2]; intros H; inversion H; subst.
    right. repeat split. exists cause. split; reflexivity.
  - intros H. inversion H; subst. left. repeat split.
Qed.

Lemma dict_get_set_same (d : dict F) (k : string) (v : value) :
  dict_get (P:=P) (dict_set (P:=P) d (VStr k) v) (VStr k) = Some v.
Proof.
  unfold dict_get, dict_set. induction d as [| [a va] d IH]; simpl.
  - rewrite String.eqb_refl. reflexivity.
  - destruct (key_eqb (P:=P) a (VStr k)) eqn:Ha; simpl; rewrite Ha;
      [reflexivity | exact IH].
Qed.

Lemma dict_get_set_other (d : dict F) (k k' : string) (v : value) :
  k <> k' ->
  dict_get (P:=P) (dict_set (P:=P) d (VStr k) v) (VStr k')
    = dict_get (P:=P) d (VStr k').
Proof.
  intros Hne. unfold dict_get, dict_set. induction d as [| [a va] d IH]; simpl.
  - apply String.eqb_neq in Hne. rewrite Hne. reflexivity.
  - destruct (key_eqb (P:=P) a (VStr k)) eqn:Ha; simpl.
    + destruct a; simpl in Ha; try discriminate Ha.
      apply String.eqb_eq in Ha. subst s. simpl.
      apply String.eqb_neq in Hne. rewrite Hne. reflexivity.
    + destruct (key_eqb (P:=P) a (VStr k')); [reflexivity | exact IH].
Qed.

Local Abbreviation store_pair :=
  (fun (d : dict F) (kv : string * value) =>
     dict_set (P:=P) d (VStr (fst kv)) (snd kv)).

Lemma fold_missing (l : list (string * value)) :
  forall (d : dict F) (k : string),
    ~ In k (map fst l) ->
    dict_get (P:=P) (fold_left store_pair l d) (VStr k)
      = dict_get (P:=P) d (VStr k).
Proof.
  induction l as [| [k0 v0] l IH]; intros d k Hk; simpl; [reflexivity |].
  simpl in Hk. rewrite IH by tauto. simpl.
  apply dict_get_set_other. intros E. apply Hk. left. exact E.
Qed.

Lemma fold_present (l : list (string * value)) :
  forall (d : dict F) (k : string) (v : value),
    NoDup (map fst l) -> In (k, v) l ->
    dict_get (P:=P) (fold_left store_pair l d) (VStr k) = Some v.
Proof.
  induction l as [| [k0 v0] l IH]; intros d k v Hnd Hin; simpl in *;
    [contradiction |].
  inversion Hnd as [| x xs Hx Hnd']; subst.
  destruct Hin as [E | Hin].
  - inversion E; subst. rewrite fold_missing by exact Hx.
    apply dict_get_set_same.
  - apply IH; assumption.
Qed.

Lemma combine_keys (names : list string) :
  forall (values : list value),
    (forall k, In k (map fst (combine names values)) -> In k names) /\
    (NoDup names -> NoDup (map fst (combine names values))).
Proof.
  induction names as [| n names IH]; intros values; simpl.
  - split; [tauto | intros _; constructor].
  - destruct values as [| v values]; simpl.
    + split; [tauto | intros _; constructor].
    + destruct (IH values) as [Hin Hnd]. split.
      * intros k [E | Hk]; [left; exact E | right; apply Hin; exact Hk].
      * intros H. inversion H; subst. constructor; [| apply Hnd; assumption].
        intros Hk. apply Hin in Hk. contradiction.
Qed.

Lemma combine_at (names : list string) :
  forall (values : list value) (i : nat) (name : string) (v : value),
    nth_error names i = Some name -> nth_error values i = Some v ->
    In (name, v) (combine names values).
Proof.
  induction names as [| n names IH]; intros values i name v Hn Hv;
    destruct i as [| i]; destruct values as [| v0 values];
    simpl in *; try discriminate.
  - inversion Hn; inversion Hv; subst. left. reflexivity.
  - right. apply (IH values i); assumption.
Qed.

(** X14: With audit logging on, the audit trail of a call tells what happened:
    a rejected call leaves one line with the reason; a call that returns
    leaves the start line and a success line that states the row count and
    the time of the result; a call whose execution fails leaves the start
    line and an error line with the message of the raised exception.  All
    of them name the text, the identity and the database of the agent. *)
Theorem audit_trail_of_a_call (self : SpannerAgent F)
    (sql u s : string) (w w' : World) (r : outcome (QueryResult F)) :
  enable_audit self = true ->
  execute_query self sql u s w = (r, w') ->
  (fst (validate_query sql (_create_security_context self u s)) = false /\
   audit_log w' =
     (audit_log w ++
        [audit_line P self "query_rejected" sql u s
           (snd (validate_query sql (_create_security_context self u s)))
           (clock w)])%list)
  \/
  (fst (validate_query sql (_create_security_context self u s)) = true /\
   exists n,
     audit_log w' =
       (audit_log w ++
          [audit_line P self "query_execution_start" sql u s "" (clock w);
           audit_line P self
             match r with
             | Return _ => "query_execution_success"
             | Raise _ => "query_execution_error"
             end
             sql u s
             match r with
             | Return res =>
                 "Returned " ++ str_int (row_count res) ++ " rows in "
                   ++ format_3f P (execution_time res) ++ "s"
             | Raise e => str_exn e
             end
             n])%list).
Proof.
  intros Hau. rewrite execute_query_eq. cbv zeta.
  destruct (validate_query sql (_create_security_context self u s)) as [[|] msg];
    cbn [fst snd].
  - destruct (run_in_snapshot self sql (_create_security_context self u s)
                (audited P self "query_execution_start" sql u s "" w))
      as [ro w2] eqn:E.
    apply run_in_snapshot_frame in E. rewrite audited_audit_log, Hau in E.
    destruct E as [Ha _]. intros H. right. split; [reflexivity |].
    destruct ro as [[results t] | e]; inversion H; subst;
      rewrite audited_audit_log, Hau; cbn [clock_read tick snd audit_log clock];
      rewrite Ha, <- app_assoc; eexists; reflexivity.
  - intros H. inversion H; subst. left. split; [reflexivity |].
    rewrite audited_audit_log, Hau. reflexivity.
Qed.

(** X15: In a row built from distinct column names, the value under a column
    name is the cell at the position of that name; asking for a name that
    is not a column raises [KeyError]. *)
Theorem row_lookup_by_column (names : list string) (values : list value)
    (w : World) :
  (forall i name v,
     NoDup names ->
     nth_error names i = Some name -> nth_error values i = Some v ->
     getitem (P:=P) (dict_zip (P:=P) names values) name w = (Return v, w)) /\
  (forall name,
     ~ In name names ->
     getitem (P:=P) (dict_zip (P:=P) names values) name w
       = (Raise (KeyError name), w)).
Proof.
  split.
  - intros i name v Hnd Hn Hv. unfold getitem, dict_zip.
    rewrite (fold_present (combine names values) [] name v);
      [reflexivity | apply combine_keys; exact Hnd
       | apply (combine_at names values i); assumption].
  - intros name Hno. unfold getitem, dict_zip.
    rewrite (fold_missing (combine names values) [] name); [reflexivity |].
    intros Hin. apply Hno. apply (proj1 (combine_keys names values)). exact Hin.
Qed.

End WithPlatform.

Lemma row_lookup_by_column_witness :
  getitem (P:=Sample.platform)
    (dict_zip (P:=Sample.platform) ["id"; "name"] [VInt 7; VStr "ann"])
    "name" initial_world
  = (Return (VStr "ann"), initial_world).
Proof.
  apply (proj1 (row_lookup_by_column Sample.platform
                  ["id"; "name"] [VInt 7; VStr "ann"] initial_world) 1%nat).
  - repeat constructor; simpl; intuition discriminate.
  - reflexivity.
  - reflexivity.
Defined.

Lemma database_requests_of_a_call_witness :
  exists n evs,
    db_log (snd Sample.capped_run) = ([] ++ evs)%list /\
    call_requests "SELECT id, name FROM users" n evs /\ (Z.of_nat n <= 3)%Z.
Proof.
  destruct (database_requests_of_a_call Sample.platform
              (Sample.agent Sample.three_rows 2 true)
              "SELECT id, name FROM users" "default" "default"
              initial_world (snd Sample.capped_run) (fst Sample.capped_run)
              capped_run_eq)
    as [n [evs [Hd [Hc Hn]]]].
  exists n, evs. repeat split; assumption.
Defined.

Lemma clean_result_set_is_truncated_witness :
  exists r w',
    execute_query (Sample.agent Sample.three_rows 2 true)
      "SELECT id, name FROM users" "default" "default" initial_world
      = (Return r, w') /\
    row_count r = 2%Z.
Proof.
  destruct (clean_result_set_is_truncated Sample.platform
              (Sample.agent Sample.three_rows 2 true)
              "SELECT id, name FROM users" "default" "default" initial_world
              ["id"; "name"]
              [[VInt 1; VStr "ann"]; [VInt 2; VStr "bob"]; [VInt 3; VStr "cy"]]
              ltac:(vm_compute; reflexivity) eq_refl)
    as [r [w' [Hrun [_ [Hn _]]]]].
  exists r, w'. split; [exact Hrun | exact Hn].
Defined.

Lemma audit_trail_of_a_call_witness :
  exists line,
    audit_log (snd Sample.capped_run)
      = [audit_line Sample.platform (Sample.agent Sample.three_rows 2 true)
           "query_execution_start" "SELECT id, name FROM users"
           "default" "default" "" 0; line] /\
    audit_details line = "Returned 2 rows in 0.001s".
Proof.
  destruct (audit_trail_of_a_call Sample.platform
              (Sample.agent Sample.three_rows 2 true)
              "SELECT id, name FROM users" "default" "default"
              initial_world (snd Sample.capped_run) (fst Sample.capped_run)
              eq_refl capped_run_eq)
    as [[Hv _] | [_ [n Hlog]]].
  - vm_compute in Hv. discriminate Hv.
  - eexists. split; [exact Hlog | reflexivity].
Defined.

Lemma rejected_run_eq :
  execute_query (Sample.agent Sample.three_rows 1000 true)
    "DROP TABLE users" "default" "default" initial_world
  = rejected_run.
Proof. vm_compute. reflexivity. Qed.

Lemma execute_query_raises_two_kinds_witness :
  exists e w',
    execute_query (Sample.agent Sample.three_rows 1000 true)
      "DROP TABLE users" "default" "default" initial_world = (Raise e, w') /\
    exn_class e = "ValueError" /\ exn_cause e = None.
Proof.
  pose proof rejected_run_eq as E. unfold rejected_run in E.
  destruct (execute_query_raises_two_kinds Sample.platform
              (Sample.agent Sample.three_rows 1000 true)
              "DROP TABLE users" "default" "default" initial_world _ _ E)
    as [[_ [Hc [Hn _]]] | [Hv _]].
  - eexists. eexists. split; [exact E |]. split; [exact Hc | exact Hn].
  - vm_compute in Hv. discriminate Hv.
Defined.

End ExecutionTheory.

(* ================================================================== *)
(** * Further properties of the derived operations *)
(* ================================================================== *)

Module DerivedTheory.
Import Text Runtime SpannerSecurityValidator SpannerAgent Observations Notions
  ExecutionFacts DerivedFacts.
Local Open Scope py_scope.

Section WithPlatform.

Variable P : Platform.

Local Abbreviation F := (float P).
Local Abbreviation value := (Runtime.value (float P)).

(** The probe statement passes the policy engine under every context. *)
Lemma probe_is_accepted (ctx : SecurityContext) :
  validate_query "SELECT 1 as health_check" ctx = (true, "").
Proof.
  destruct ctx as [u s ro rows t ops]. destruct ro; vm_compute; reflexivity.
Qed.

(** X16: When the probe fails, the health dictionary says "unhealthy", marks
    the connection "disconnected" and carries the text of the exception
    raised by [execute_query], which is the execution-failure marker
    followed by the text of the error it wraps. *)
Theorem health_reports_probe_failure (self : SpannerAgent F)
    (w w1 : World) (e : exn) :
  execute_query self "SELECT 1 as health_check" "system" "health_check"
    (clock_read (clock_read w)) = (Raise e, w1) ->
  exists v conn cause,
    get_database_health self w = (Return v, w1) /\
    field P v "status" = Some (VStr "unhealthy") /\
    field P v "connection" = Some conn /\
    field P conn "status" = Some (VStr "disconnected") /\
    field P conn "error" = Some (VStr (str_exn e)) /\
    exn_cause e = Some cause /\
    str_exn e = "Query execution failed: " ++ str_exn cause.
Proof.
  intros Hprobe. rewrite get_database_health_eq, Hprobe.
  rewrite execute_query_eq in Hprobe. cbv zeta in Hprobe.
  rewrite probe_is_accepted in Hprobe.
  destruct (run_in_snapshot self "SELECT 1 as health_check"
              (_create_security_context self "system" "health_check")
              (audited P self "query_execution_start" "SELECT 1 as health_check"
                 "system" "health_check" "" (clock_read (clock_read w))))
    as [[[results t] | cause] w2]; inversion Hprobe; subst.
  eexists. eexists. exists cause. split; [reflexivity |]. repeat split.
Qed.

(** X17: Every health check goes to the database: the probe is never rejected,
    so each call opens a snapshot, and the call returns a dictionary
    whatever the database does. *)
Theorem health_check_reaches_database (self : SpannerAgent F) (w : World) :
  exists v w' evs,
    get_database_health self w = (Return v, w') /\
    db_log w' = (db_log w ++ OpenSnapshot :: evs)%list /\
    (forall stmt, In (ExecuteSql stmt) evs -> stmt = "SELECT 1 as health_check").
Proof.
  rewrite get_database_health_eq, execute_query_eq. cbv zeta.
  rewrite probe_is_accepted.
  destruct (run_in_snapshot self "SELECT 1 as health_check"
              (_create_security_context self "system" "health_check")
              (audited P self "query_execution_start" "SELECT 1 as health_check"
                 "system" "health_check" "" (clock_read (clock_read w))))
    as [ro w2] eqn:E.
  apply run_in_snapshot_frame in E. rewrite audited_db_log in E.
  cbn [clock_read tick snd db_log] in E.
  destruct E as [_ [_ [evs [Hd [n Hev]]]]].
  assert (Hshape : exists rest,
            evs = OpenSnapshot :: rest /\
            forall stmt, In (ExecuteSql stmt) rest ->
                         stmt = "SELECT 1 as health_check").
  { destruct Hev as [Hev | Hev]; subst evs.
    - exists []. split; [reflexivity | intros stmt []].
    - eexists. split; [reflexivity |].
      intros stmt Hin.
      apply (snapshot_requests_sql "SELECT 1 as health_check" stmt
               ([OpenSnapshot; ExecuteSql "SELECT 1 as health_check"]
                  ++ repeat FetchRow n ++ [CloseSnapshot])%list).
      + exists n. right. reflexivity.
      + right. exact Hin. }
  destruct Hshape as [rest [Hevs Hrest]]. subst evs.
  destruct ro as [[results t] | e];
    eexists; eexists; exists rest; (split; [reflexivity |]);
    rewrite audited_db_log; cbn [clock_read tick snd db_log];
    (split; [exact Hd | exact Hrest]).
Qed.

(** X18: The rating of the performance advisor: the estimated cost always
    equals the complexity; the complexity is "low" exactly when nothing is
    recommended, "high" exactly when all four checks fire or the LIKE check
    fires alone, and "medium" otherwise. *)
Theorem advisor_rating (self : SpannerAgent F) (sql : string) (w : World) :
  exists v a c recs,
    fst (analyze_query_performance self sql w) = Return v /\
    field P v "analysis" = Some a /\
    field P a "complexity" = Some (VStr c) /\
    field P a "estimated_cost" = Some (VStr c) /\
    field P a "recommendations" = Some (VList (map VStr recs)) /\
    (length recs <= 4)%nat /\
    (c = "low" <-> recs = []) /\
    (c = "high" <->
     length recs = 4%nat \/ (length recs = 1%nat /\ like_flagged sql = true)) /\
    (c = "low" \/ c = "medium" \/ c = "high").
Proof.
  rewrite analyze_query_performance_eq. cbn [fst].
  eexists. eexists.
  exists (rate_complexity (performance_findings sql)),
         (fst (performance_findings sql)).
  split; [reflexivity |]. split; [reflexivity |]. split; [reflexivity |].
  split.
  { unfold rate_complexity, performance_findings, rate_cost. cbv zeta.
    generalize (contains "SELECT *" (upper sql)),
      (contains "ORDER BY" (upper sql) && negb (contains "LIMIT" (upper sql))),
      (contains "LIKE '%pattern%'" sql || contains "LIKE 'pattern%'" sql),
      (contains "JOIN" (upper sql)).
    intros [] [] [] []; vm_compute; reflexivity. }
  split; [reflexivity |].
  unfold rate_complexity, performance_findings, like_flagged. cbv zeta.
  generalize (contains "SELECT *" (upper sql)),
    (contains "ORDER BY" (upper sql) && negb (contains "LIMIT" (upper sql))),
    (contains "LIKE '%pattern%'" sql || contains "LIKE 'pattern%'" sql),
    (contains "JOIN" (upper sql)).
  intros [] [] [] []; cbn;
    (split; [lia |]);
    (split; [split; intros H; first [discriminate H | reflexivity] |]);
    (split;
     [ split;
       [ intros H;
         first [ discriminate H | left; reflexivity
               | right; split; reflexivity ]
       | intros [H | [H H']];
         first [ discriminate H | discriminate H' | reflexivity ] ]
     | first [ left; reflexivity | right; left; reflexivity
             | right; right; reflexivity ] ]).
Qed.

End WithPlatform.

Lemma failed_probe_run_eq :
  execute_query (Sample.agent Sample.unavailable 1000 true)
    "SELECT 1 as health_check" "system" "health_check"
    (clock_read (clock_read initial_world))
  = failed_probe_run.
Proof. vm_compute. reflexivity. Qed.

Lemma health_reports_probe_failure_witness :
  exists v conn,
    fst (get_database_health (Sample.agent Sample.unavailable 1000 true)
           initial_world) = Return v /\
    field Sample.platform v "connection" = Some conn /\
    field Sample.platform conn "error"
      = Some (VStr "Query execution failed: 503 unavailable").
Proof.
  pose proof failed_probe_run_eq as E. unfold failed_probe_run in E.
  destruct (health_reports_probe_failure Sample.platform
              (Sample.agent Sample.unavailable 1000 true) initial_world _ _ E)
    as [v [conn [cause [Hrun [_ [Hconn [_ [Herr _]]]]]]]].
  exists v, conn. rewrite Hrun. repeat split; assumption.
Defined.

End DerivedTheory.

(* ================================================================== *)
(** * Properties of the tools on a real agent, and of start-up *)
(* ================================================================== *)

Module ToolTheory.
Import Text Runtime SpannerSecurityValidator Observations Notions ExecutionFacts
  DerivedFacts.
Local Open Scope py_scope.

Section WithPlatform.

Variable P : Platform.

Local Abbreviation F := (float P).
Local Abbreviation value := (Runtime.value (float P)).
Local Abbreviation obj := (@SpannerAgent.obj (float P)).

(** X19: Served by an instance of [SpannerAgent], the two introspection tools
    always answer with the JSON text of an error document that carries the
    rejection by the policy engine, and the database is not contacted. *)
Theorem introspection_tools_answer_with_errors
    (self : SpannerAgent.SpannerAgent F) (table_name : string) (w : World) :
  (exists now w',
     get_spanner_schema (Methods.of_agent self) w =
       (Return (Json (obj
          [ ("error",
             VStr ("Failed to retrieve schema: "
                     ++ "Failed to retrieve schema information: "
                     ++ "Query rejected for security reasons: "
                     ++ "Query contains forbidden pattern: "
                     ++ "INFORMATION_SCHEMA\.(TABLES|COLUMNS)"));
            ("timestamp", VStr now) ])), w') /\
     db_log w' = db_log w) /\
  (exists pattern now w',
     In pattern DANGEROUS_PATTERNS /\
     get_table_statistics (Methods.of_agent self) table_name w =
       (Return (Json (obj
          [ ("error",
             VStr ("Failed to retrieve table statistics for " ++ table_name
                     ++ ": " ++ "Query rejected for security reasons: "
                     ++ "Query contains forbidden pattern: " ++ pattern));
            ("table_name", VStr table_name);
            ("timestamp", VStr now) ])), w') /\
     db_log w' = db_log w).
Proof.
  split.
  - unfold get_spanner_schema, try_except, bind at 1.
    cbn [Methods.get_schema_info Methods.of_agent].
    rewrite get_schema_info_eq. cbv zeta.
    eexists. eexists. split; [reflexivity |].
    unfold SpannerAgent.utcnow, bind, tick, ret. cbn [snd db_log].
    rewrite audited_db_log. unfold logged, logger_error. cbn [snd db_log].
    apply audited_db_log.
  - unfold get_table_statistics, try_except, bind at 1.
    cbn [Methods.get_table_statistics Methods.of_agent].
    destruct (get_table_statistics_eq P self table_name w) as [pattern [Hin Heq]].
    cbv zeta in Heq. rewrite Heq.
    exists pattern. eexists. eexists. split; [exact Hin |].
    split; [reflexivity |].
    unfold clock_read, tick, logged, logger_error. cbn [snd db_log].
    apply audited_db_log.
Qed.

(** X20: Served by an instance of [SpannerAgent], [run_spanner_query] always
    returns a dictionary: for a rejected text it has [success = False], the
    rejection message and the identity, and the database is not contacted;
    when [execute_query] returns a result it is that result as a
    dictionary, with [success = True], [row_count] the number of rows in
    [data], and no error. *)
Theorem run_spanner_query_reports_outcome
    (self : SpannerAgent.SpannerAgent F) (sql u s : string) (w : World) :
  exists v w',
    run_spanner_query (Methods.of_agent self) sql u s w = (Return v, w') /\
    (fst (validate_query sql (SpannerAgent._create_security_context self u s))
       = false ->
     field P v "success" = Some (VBool false) /\
     field P v "error"
       = Some (VStr ("Query rejected for security reasons: "
                       ++ snd (validate_query sql
                                 (SpannerAgent._create_security_context self u s)))) /\
     field P v "user_id" = Some (VStr u) /\
     field P v "session_id" = Some (VStr s) /\
     db_log w' = db_log w) /\
    (forall r w1,
       SpannerAgent.execute_query self sql u s w = (Return r, w1) ->
       v = SpannerAgent.asdict r /\ w' = w1 /\
       field P v "success" = Some (VBool true) /\
       field P v "row_count"
         = Some (VInt (Z.of_nat (length (SpannerAgent.data r)))) /\
       field P v "error" = Some VNone).
Proof.
  unfold run_spanner_query, try_except, bind at 1.
  cbn [Methods.execute_query Methods.of_agent].
  rewrite execute_query_eq. cbv zeta.
  destruct (validate_query sql (SpannerAgent._create_security_context self u s))
    as [[|] msg]; cbn [fst snd].
  - destruct (SpannerAgent.run_in_snapshot self sql
                (SpannerAgent._create_security_context self u s)
                (audited P self "query_execution_start" sql u s "" w))
      as [[[results t] | e] w2].
    + eexists. eexists. split; [reflexivity |].
      split; [intros H; discriminate H |].
      intros r w1 H. inversion H; subst. repeat split.
    + eexists. eexists. split; [reflexivity |].
      split; [intros H; discriminate H |].
      intros r w1 H. discriminate H.
  - eexists. eexists. split; [reflexivity |]. split.
    + intros _. repeat split.
      unfold SpannerAgent.utcnow, bind, tick, ret. cbn [snd db_log].
      apply audited_db_log.
    + intros r w1 H. discriminate H.
Qed.

End WithPlatform.

Lemma run_spanner_query_reports_outcome_witness :
  exists v w',
    run_spanner_query (Methods.of_agent (Sample.agent Sample.three_rows 1000 true))
      "DROP TABLE users" "ann" "s-1" initial_world = (Return v, w') /\
    field Sample.platform v "success" = Some (VBool false) /\
    field Sample.platform v "user_id" = Some (VStr "ann") /\
    db_log w' = [].
Proof.
  destruct (run_spanner_query_reports_outcome Sample.platform
              (Sample.agent Sample.three_rows 1000 true)
              "DROP TABLE users" "ann" "s-1" initial_world)
    as [v [w' [Hrun [Hrej _]]]].
  destruct (Hrej ltac:(vm_compute; reflexivity)) as [Hs [_ [Hu [_ Hd]]]].
  exists v, w'. repeat split; assumption.
Defined.

End ToolTheory.

Module StartupTheory.
Import Text Runtime SpannerSecurityValidator Observations Notions ExecutionFacts
  Startup.

(** X21: Without its database identity the agent does not start: when
    SPANNER_INSTANCE or SPANNER_DATABASE is unset, [__init__] raises the
    [KeyError] naming the first one missing, whatever else is set. *)
Theorem start_up_needs_identity (F : Type) (int : string -> outcome Z)
    (connect : option string -> string -> string
               -> outcome (SpannerAgent.Database F))
    (env : environ) :
  env "SPANNER_INSTANCE" = None \/ env "SPANNER_DATABASE" = None ->
  __init__ int connect env
    = Raise (KeyError (match env "SPANNER_INSTANCE" with
                       | None => "SPANNER_INSTANCE"
                       | Some _ => "SPANNER_DATABASE"
                       end)).
Proof.
  intros H. unfold __init__, environ_item.
  destruct (env "SPANNER_INSTANCE") as [i |] eqn:Hi.
  - destruct H as [H | H]; [discriminate H |]. rewrite H. reflexivity.
  - reflexivity.
Qed.

(** What [__init__] hands over when it returns. *)
Lemma init_returns (F : Type) (int : string -> outcome Z)
    (connect : option string -> string -> string
               -> outcome (SpannerAgent.Database F))
    (env : environ) (agent : SpannerAgent.SpannerAgent F) (lines : list string) :
  __init__ int connect env = Return (agent, lines) ->
  SpannerAgent.self_read_only agent
    = String.eqb (lower (getenv env "SPANNER_READ_ONLY" "true")) "true" /\
  int (getenv env "SPANNER_MAX_ROWS" "1000")
    = Return (SpannerAgent.self_max_rows agent).
Proof.
  unfold __init__.
  destruct (environ_item env "SPANNER_INSTANCE") as [instance |];
    [| discriminate].
  destruct (environ_item env "SPANNER_DATABASE") as [db |]; [| discriminate].
  destruct (int (getenv env "SPANNER_MAX_ROWS" "1000")) as [cap |];
    [| discriminate].
  destruct (int (getenv env "SPANNER_QUERY_TIMEOUT" "30")) as [timeout |];
    [| discriminate].
  destruct (connect (env "SPANNER_PROJECT") instance db) as [handle |];
    [| discriminate].
  intros H. inversion H; subst. split; reflexivity.
Qed.

(** X22: An agent started with SPANNER_READ_ONLY unset, or set to "true" in any
    letter case, refuses every text whose leading keyword is not SELECT,
    WITH, SHOW or DESCRIBE: [execute_query] raises [ValueError] and the
    database is not contacted.  Stated for the texts whose upper-cased
    form [upper] gives exactly. *)
Theorem read_only_start_up_refuses_other_statements (P : Platform)
    (int : string -> outcome Z)
    (connect : option string -> string -> string
               -> outcome (SpannerAgent.Database (float P)))
    (env : environ) (agent : SpannerAgent.SpannerAgent (float P))
    (lines : list string) (sql u s : string) (w : World) :
  upper_closed sql = true ->
  lower (getenv env "SPANNER_READ_ONLY" "true") = "true" ->
  __init__ int connect env = Return (agent, lines) ->
  ~ In (spec_leading_keyword sql) read_keywords ->
  exists e w',
    SpannerAgent.execute_query agent sql u s w = (Raise e, w') /\
    exn_class e = "ValueError" /\ db_log w' = db_log w.
Proof.
  intros _ Hro Hinit Hkw.
  apply init_returns in Hinit. destruct Hinit as [Hflag _].
  rewrite Hro in Hflag. simpl in Hflag.
  rewrite execute_query_eq. cbv zeta.
  assert (Hv : fst (validate_query sql
                      (SpannerAgent._create_security_context agent u s)) = false).
  { unfold validate_query.
    destruct (dangerous_pattern (sql_upper sql)); [reflexivity |].
    cbn [read_only SpannerAgent._create_security_context new_SecurityContext].
    rewrite Hflag.
    destruct (allowed_shape (sql_upper sql)) eqn:Ha; [| reflexivity].
    exfalso. apply Hkw. apply PolicyTheory.allowed_shape_keyword. exact Ha. }
  destruct (validate_query sql (SpannerAgent._create_security_context agent u s))
    as [[|] msg]; [discriminate Hv |].
  eexists. eexists. split; [reflexivity |].
  split; [reflexivity | apply audited_db_log].
Qed.

(** X23: The row cap is taken from SPANNER_MAX_ROWS without a range check: an
    agent started with a cap that is zero or negative returns no row from
    any successful call. *)
Theorem non_positive_cap_returns_no_rows (P : Platform)
    (int : string -> outcome Z)
    (connect : option string -> string -> string
               -> outcome (SpannerAgent.Database (float P)))
    (env : environ) (agent : SpannerAgent.SpannerAgent (float P))
    (lines : list string) (n : Z) (sql u s : string) (w w' : World)
    (r : SpannerAgent.QueryResult (float P)) :
  __init__ int connect env = Return (agent, lines) ->
  int (getenv env "SPANNER_MAX_ROWS" "1000") = Return n ->
  (n <= 0)%Z ->
  SpannerAgent.execute_query agent sql u s w = (Return r, w') ->
  SpannerAgent.data r = [] /\ SpannerAgent.row_count r = 0%Z.
Proof.
  intros Hinit Hint Hn Hrun.
  apply init_returns in Hinit. destruct Hinit as [_ Hcap].
  rewrite Hint in Hcap. inversion Hcap as [Hcap']. clear Hcap.
  rewrite execute_query_eq in Hrun. cbv zeta in Hrun.
  destruct (validate_query sql (SpannerAgent._create_security_context agent u s))
    as [[|] msg]; [| discriminate Hrun].
  destruct (SpannerAgent.run_in_snapshot agent sql
              (SpannerAgent._create_security_context agent u s)
              (audited P agent "query_execution_start" sql u s "" w))
    as [[[results t] | e] w2] eqn:E; [| discriminate Hrun].
  apply run_in_snapshot_bound in E.
  cbn [max_rows SpannerAgent._create_security_context new_SecurityContext] in E.
  rewrite <- Hcap' in E.
  inversion Hrun; subst. cbn [SpannerAgent.data SpannerAgent.row_count].
  destruct results as [| row results]; [split; reflexivity |].
  simpl length in E. lia.
Qed.

Lemma start_up_needs_identity_witness :
  __init__ (F:=float Sample.platform) sample_int sample_connect
      (fun name => if String.eqb name "SPANNER_INSTANCE"
                   then Some "prod" else None)
    = Raise (KeyError "SPANNER_DATABASE").
Proof.
  exact (start_up_needs_identity (float Sample.platform)
           sample_int sample_connect
           (fun name => if String.eqb name "SPANNER_INSTANCE"
                        then Some "prod" else None)
           (or_intror eq_refl)).
Defined.

Lemma started_agent_eq :
  __init__ sample_int sample_connect sample_environ
    = Return (started_agent, started_lines).
Proof. vm_compute. reflexivity. Qed.

Lemma negative_cap_agent_eq :
  __init__ sample_int sample_connect negative_cap_environ
    = Return (negative_cap_agent, negative_cap_lines).
Proof. vm_compute. reflexivity. Qed.

Lemma negative_cap_run_eq :
  SpannerAgent.execute_query negative_cap_agent
    "SELECT id, name FROM users" "default" "default" initial_world
  = negative_cap_run.
Proof. vm_compute. reflexivity. Qed.

Lemma read_only_start_up_refuses_other_statements_witness :
  exists e w',
    SpannerAgent.execute_query started_agent "CALL cleanup()" "ann" "s-1"
      initial_world = (Raise e, w') /\
    exn_class e = "ValueError" /\ db_log w' = [].
Proof.
  apply (read_only_start_up_refuses_other_statements Sample.platform
           sample_int sample_connect sample_environ started_agent started_lines
           "CALL cleanup()" "ann" "s-1" initial_world).
  - reflexivity.
  - reflexivity.
  - exact started_agent_eq.
  - vm_compute. intros H. intuition discriminate.
Defined.

Lemma non_positive_cap_returns_no_rows_witness :
  exists r w',
    SpannerAgent.execute_query negative_cap_agent
      "SELECT id, name FROM users" "default" "default" initial_world
      = (Return r, w') /\
    SpannerAgent.data r = [].
Proof.
  pose proof negative_cap_run_eq as E. unfold negative_cap_run in E.
  eexists. eexists. split; [exact E |].
  apply (non_positive_cap_returns_no_rows Sample.platform
           sample_int sample_connect negative_cap_environ
           negative_cap_agent negative_cap_lines (-1)
           "SELECT id, name FROM users" "default" "default"
           initial_world _ _ negative_cap_agent_eq eq_refl
           ltac:(vm_compute; discriminate) E).
Defined.

End StartupTheory.
